(** * DQN training loop for Pong: replay buffer, agent, Bellman target, main loop

    A shallow embedding of [Sem54/02_dqn_pong.py].

    Conventions of the embedding:
    - Python [int] is [Z] (or [nat] for lengths and indices, which are never
      negative); Python and torch floats are modelled by the exact rational
      they denote ([Q]); rounding is not modelled.
    - A raised exception is [Raise] with the name of the exception class.
    - Methods of mutable objects take the object and return the new one.
    - Random draws and clock readings are explicit inputs of the function that
      asks for them.
    - The collaborators that are imported ([gym] environment, [torch] network
      and optimiser) are interfaces (type classes). *)

From Stdlib Require Import Ascii String.
From Stdlib Require Import List ZArith QArith Qminmax Bool Lia Lqa.
From Stdlib Require Import Permutation.
Import ListNotations.

Set Implicit Arguments.
Open Scope string_scope.
Open Scope list_scope.
Open Scope Z_scope.

(** ** Exceptions *)

Inductive result (A : Type) : Type :=
| Ok (a : A)
| Raise (exn : string).
Arguments Ok {A} a.
Arguments Raise {A} exn.

Definition bind {A B : Type} (r : result A) (k : A -> result B) : result B :=
  match r with
  | Ok a => k a
  | Raise e => Raise e
  end.

Notation "x <- r ;; k" := (bind r (fun x => k))
  (at level 61, r at next level, right associativity).

Fixpoint mapM {A B : Type} (f : A -> result B) (l : list A) : result (list B) :=
  match l with
  | [] => Ok []
  | a :: l' => b <- f a ;; bs <- mapM f l' ;; Ok (b :: bs)
  end.

(** ** Hyperparameters (the module constants) *)

Record Hyper : Type := mkHyper {
  MEAN_REWARD_BOUND : Z;
  GAMMA : Q;
  BATCH_SIZE : Z;
  REPLAY_SIZE : Z;
  LEARNING_RATE : Q;
  SYNC_TARGET_FRAMES : Z;
  REPLAY_START_SIZE : Z;
  EPSILON_DECAY_LAST_FRAME : Z;
  EPSILON_START : Q;
  EPSILON_FINAL : Q
}.

(** The values the source file gives them. *)
Definition source_constants : Hyper := {|
  MEAN_REWARD_BOUND := 19;
  GAMMA := 99 # 100;
  BATCH_SIZE := 32;
  REPLAY_SIZE := 10000;
  LEARNING_RATE := 1 # 10000;
  SYNC_TARGET_FRAMES := 1000;
  REPLAY_START_SIZE := 10000;
  EPSILON_DECAY_LAST_FRAME := 150000;
  EPSILON_START := 1;
  EPSILON_FINAL := 1 # 100
|}.

(** ** [collections.deque(maxlen=...)]

    The oldest element is the head of [items]. *)

Module deque.
Section Deque.
Context {A : Type}.

Record t : Type := mk { maxlen : nat; items : list A }.

  (** [deque(maxlen=n)] rejects a negative bound. *)
Definition make (n : Z) : result t :=
    if n <? 0 then Raise "ValueError" else Ok (mk (Z.to_nat n) []).

Definition len (d : t) : nat := length (items d).

  (** [append] adds on the right, then drops the leftmost element when the
      length has passed [maxlen]. *)
Definition append (x : A) (d : t) : t :=
    let l := items d ++ [x] in
    mk (maxlen d) (if (maxlen d <? length l)%nat then tl l else l).

Definition getitem (d : t) (idx : nat) : result A :=
    match nth_error (items d) idx with
    | Some x => Ok x
    | None => Raise "IndexError"
    end.

  (** A deque that [make] and [append] can produce. *)
Definition wf (d : t) : Prop := (length (items d) <= maxlen d)%nat.
End Deque.
Arguments t A : clear implicits.
End deque.

(** ** Experience *)

Module Experience.
Record t (Obs : Type) : Type := mk {
    state : Obs;
    action : nat;
    reward : Q;
    done : bool;
    new_state : Obs
  }.
Arguments mk {Obs} state action reward done new_state.
End Experience.

(** CPython turns an [int] that is passed where the C code of a constructor
    expects a [Py_ssize_t] into one, and raises [OverflowError] when it does
    not fit 64 bits. *)
Definition as_ssize_t (n : Z) : result Z :=
  if (n <? - 2 ^ 63) || (2 ^ 63 <=? n) then Raise "OverflowError" else Ok n.

(** The numbers that a [float32] holds: [m * 2^e] with [|m| < 2^24] and
    [-149 <= e <= 104]. A cast to [float32] leaves them as they are. *)
Definition float32_exact (q : Q) : Prop :=
  exists m e : Z,
    Z.abs m < 2 ^ 24 /\ -149 <= e <= 104 /\ (q == inject_Z m * 2 ^ e)%Q.

(** A batch as [sample] returns it: five parallel arrays
    [(states, actions, rewards, dones, next_states)]; [dones] is a [uint8]
    array. *)
Definition Batch (Obs : Type) : Type :=
  (list Obs * list nat * list Q * list Z * list Obs)%type.

(** [np.random.choice(a, size, replace=False)]: numpy raises [ValueError] for
    a negative [size] and for [size > a]; otherwise it returns the first [size]
    entries of a random permutation of [range(a)]. The permutation drawn by
    the generator is the argument [perm]. *)
Definition np_random_choice (perm : list nat) (a : nat) (size : Z)
  : result (list nat) :=
  if (size <? 0) || (Z.of_nat a <? size) then Raise "ValueError"
  else Ok (firstn (Z.to_nat size) perm).

(** [zip] of the starred rows, unpacked into five names: with no row there is
    nothing to unpack and Python raises [ValueError]. *)
Definition unzip5 {Obs : Type} (rows : list (Experience.t Obs))
  : result (list Obs * list nat * list Q * list bool * list Obs) :=
  match rows with
  | [] => Raise "ValueError"
  | _ => Ok (map (@Experience.state Obs) rows,
             map (@Experience.action Obs) rows,
             map (@Experience.reward Obs) rows,
             map (@Experience.done Obs) rows,
             map (@Experience.new_state Obs) rows)
  end.

(** ** ExperienceBuffer *)

Module ExperienceBuffer.
Section Buffer.
Context {Obs : Type}.

Record t : Type := mk { buffer : deque.t (Experience.t Obs) }.

Definition __init__ (capacity : Z) : result t :=
    d <- deque.make capacity ;; Ok (mk d).

Definition __len__ (self : t) : nat := deque.len (buffer self).

Definition append (experience : Experience.t Obs) (self : t) : t :=
    mk (deque.append experience (buffer self)).

  (** [sample] reads the buffer; the object it was called on is returned
      next to the result. The cast of the rewards column to [float32] is
      the identity on the numbers a [float32] holds ([float32_exact]); the
      rounding of other rewards is not modelled. *)
Definition sample (batch_size : Z) (perm : list nat) (self : t)
    : result (Batch Obs) * t :=
    (indices <- np_random_choice perm (deque.len (buffer self)) batch_size ;;
     rows <- mapM (deque.getitem (buffer self)) indices ;;
     cols <- unzip5 rows ;;
     let '(states, actions, rewards, dones, next_states) := cols in
     Ok (states, actions, rewards, map Z.b2z dones, next_states),
     self).

Definition contents (self : t) : list (Experience.t Obs) :=
    deque.items (buffer self).

Definition wf (self : t) : Prop := deque.wf (buffer self).
End Buffer.
Arguments t Obs : clear implicits.
End ExperienceBuffer.

(** ** Collaborators *)

(** The environment, as the agent uses it ([gym] interface): [reset] gives
    the first observation, [step] gives
    [(next_state, reward, terminated, truncated)], [action_space_sample]
    draws an action from the environment's own generator. The [info]
    dictionaries are dropped by the caller and left out. *)
Module gym.
Class Env (Obs E : Type) : Type := {
    reset : E -> Obs * E;
    step : nat -> E -> (Obs * Q * bool * bool) * E;
    action_space_sample : E -> nat * E
  }.
End gym.

Definition Qlt_bool (x y : Q) : bool := negb (Qle_bool y x).

Module torch.
  (** One row of per-action values. An action space [Discrete(n)] has
      [n >= 1], so a row has a first entry. *)
Record qvals : Type := row { first : Q; rest : list Q }.

Definition to_list (r : qvals) : list Q := first r :: rest r.

Fixpoint max_scan (best : Q) (besti i : nat) (l : list Q) : Q * nat :=
    match l with
    | [] => (best, besti)
    | x :: l' =>
        if Qlt_bool best x then max_scan x i (S i) l'
        else max_scan best besti (S i) l'
    end.

  (** [torch.max] along the action dimension: the maximum and the index of
      its first occurrence. *)
Definition max (r : qvals) : Q * nat := max_scan (first r) 0%nat 1%nat (rest r).

  (** [gather] of one entry of a row. *)
Definition gather (r : qvals) (a : nat) : result Q :=
    match nth_error (to_list r) a with
    | Some q => Ok q
    | None => Raise "RuntimeError"
    end.

  (** A scalar tensor of floats: a number, or [nan]. *)
Inductive scalar : Type :=
| Num (q : Q)
| nan.

  (** Network and optimiser. [forward] evaluates a network with the given
      parameters on one state. [Adam] is the optimiser state that the
      constructor builds for a learning rate it accepts. [backward_step]
      stands for [zero_grad(); loss.backward(); optimizer.step()]: it is
      given the loss as a function of the online parameters. *)
Class Learner (Params Opt Obs : Type) : Type := {
    forward : Params -> Obs -> qvals;
    Adam : Params -> Q -> Opt;
    backward_step : Opt -> (Params -> result scalar) -> Params -> Params * Opt
  }.

  (** [optim.Adam(params, lr=lr)]: the constructor raises [ValueError] for a
      negative learning rate. *)
Definition optim_Adam {Params Opt Obs : Type} `{Learner Params Opt Obs}
      (params : Params) (lr : Q) : result Opt :=
    if Qlt_bool lr 0 then Raise "ValueError" else Ok (Adam params lr).
End torch.

(** ** Agent *)

Module Agent.
Section Agent.
Context {Obs E : Type} `{gym.Env Obs E}.

Record t : Type := mk {
    env : E;
    exp_buffer : ExperienceBuffer.t Obs;
    state : Obs;
    total_reward : Q
  }.

Definition _reset (self : t) : t :=
    let '(state0, env') := gym.reset (env self) in
    mk env' (exp_buffer self) state0 0.

Definition __init__ (env0 : E) (exp_buffer0 : ExperienceBuffer.t Obs) : t :=
    let '(state0, env') := gym.reset env0 in
    mk env' exp_buffer0 state0 0.

  (** The epsilon-greedy choice; [u] is the value of [np.random.random()]. *)
Definition select_action (net : Obs -> torch.qvals) (epsilon u : Q)
      (self : t) : nat * E :=
    if Qlt_bool u epsilon then gym.action_space_sample (env self)
    else (snd (torch.max (net (state self))), env self).

Definition play_step (net : Obs -> torch.qvals) (epsilon u : Q) (self : t)
    : option Q * t :=
    let '(action, env1) := select_action net epsilon u self in
    let '(new_state, reward, terminated, truncated, env2) :=
      gym.step action env1 in
    let total_reward' := (total_reward self + reward)%Q in
    let is_done := terminated in
    let exp := Experience.mk (state self) action reward is_done new_state in
    let exp_buffer' := ExperienceBuffer.append exp (exp_buffer self) in
    let self' := mk env2 exp_buffer' new_state total_reward' in
    if is_done then (Some total_reward', _reset self')
    else (None, self').

  (** Successive calls, one per pair [(epsilon, u)]; for each call, the
      transition it stored and the value it returned. *)
Fixpoint play_steps (net : Obs -> torch.qvals) (draws : list (Q * Q))
      (self : t) : list (Experience.t Obs * option Q) * t :=
    match draws with
    | [] => ([], self)
    | (epsilon, u) :: draws' =>
        let '(action, env1) := select_action net epsilon u self in
        let '(new_state, reward, terminated, _, _) := gym.step action env1 in
        let exp := Experience.mk (state self) action reward terminated new_state in
        let '(done_reward, self') := play_step net epsilon u self in
        let '(trace, self'') := play_steps net draws' self' in
        ((exp, done_reward) :: trace, self'')
    end.
End Agent.
Arguments t Obs E : clear implicits.
End Agent.

(** ** Loss *)

Section Loss.
Context {Obs : Type}.
Variable hp : Hyper.

  (** [next_state_values[done_mask] = 0.0] on arrays of the same length. *)
Fixpoint masked_zero (values : list Q) (mask : list bool) : list Q :=
    match values, mask with
    | v :: values', m :: mask' =>
        (if m then 0%Q else v) :: masked_zero values' mask'
    | _, _ => values
    end.

  (** The Bellman targets of a batch whose five arrays have the same length
      (on such arrays the elementwise operations of torch are zips). *)
Definition expected_state_action_values (batch : Batch Obs)
      (tgt_net : Obs -> torch.qvals) : list Q :=
    let '(states, actions, rewards, dones, next_states) := batch in
    let done_mask := map (fun d => negb (d =? 0)) dones in
    let next_state_values :=
      map (fun s => fst (torch.max (tgt_net s))) next_states in
    let next_state_values := masked_zero next_state_values done_mask in
    map (fun '(v, r) => (v * GAMMA hp + r)%Q)
        (combine next_state_values rewards).

Definition sumQ (l : list Q) : Q := fold_left Qplus l 0%Q.

  (** [nn.MSELoss()]: the mean of the squared differences; the mean of no
      element is [nan]. *)
Definition MSELoss (input target : list Q) : torch.scalar :=
    match input with
    | [] => torch.nan
    | _ =>
        torch.Num
          (sumQ (map (fun '(x, y) => (x - y) * (x - y)) (combine input target))
           / inject_Z (Z.of_nat (length input)))%Q
    end.

Definition calc_loss (batch : Batch Obs) (net tgt_net : Obs -> torch.qvals)
    : result torch.scalar :=
    let '(states, actions, rewards, dones, next_states) := batch in
    state_action_values <-
      mapM (fun '(s, a) => torch.gather (net s) a) (combine states actions) ;;
    Ok (MSELoss state_action_values
          (expected_state_action_values batch tgt_net)).

Definition same_length (batch : Batch Obs) : Prop :=
    let '(states, actions, rewards, dones, next_states) := batch in
    length actions = length states /\ length rewards = length states /\
    length dones = length states /\ length next_states = length states.
End Loss.

(** ** The main program *)

(** What one iteration of the loop draws from outside: [u] is the value of
    [np.random.random()] in [play_step], [now] and [now'] are the two
    readings of [time.time()] taken when an episode ends, [perm] is the
    permutation behind [np.random.choice] in [sample]. *)
Record Draws : Type := mkDraws {
  u : Q;
  now : Q;
  now' : Q;
  perm : list nat
}.

Inductive outcome : Type :=
| Continue
| Break
| Raised (exn : string).

(** Python's [max(a, b)]: [b] when it is greater, else [a]. *)
Definition py_max (a b : Q) : Q := if Qlt_bool a b then b else a.

(** [np.mean(l[-100:])] of a list that is not empty. *)
Definition mean_last_100 (l : list Q) : Q :=
  let tail := skipn (length l - 100) l in
  (fold_left Qplus tail 0 / inject_Z (Z.of_nat (length tail)))%Q.

Module Main.
Section Main.
Context {Obs E Params Opt : Type}.
Context `{gym.Env Obs E} `{torch.Learner Params Opt Obs}.
Variable hp : Hyper.

  (** The variables of [__main__] that the loop reads and writes. [buffer]
      is the object held by the agent as [exp_buffer]. *)
Record t : Type := mk {
    net : Params;
    tgt_net : Params;
    agent : Agent.t Obs E;
    epsilon : Q;
    optimizer : Opt;
    total_rewards : list Q;
    frame_idx : Z;
    ts_frame : Z;
    ts : Q;
    best_m_reward : option Q
  }.

Definition buffer (s : t) : ExperienceBuffer.t Obs :=
    Agent.exp_buffer (agent s).

  (** Lines 147-165. [env0], [net0], [tgt_net0] are the environment and the
      two networks as their constructors return them, [ts0] is the clock.
      [REPLAY_SIZE] reaches [deque] as a [Py_ssize_t]. *)
Definition startup (env0 : E) (net0 tgt_net0 : Params) (ts0 : Q)
    : result t :=
    maxlen <- as_ssize_t (REPLAY_SIZE hp) ;;
    buffer0 <- ExperienceBuffer.__init__ maxlen ;;
    let agent0 := Agent.__init__ env0 buffer0 in
    let epsilon0 := EPSILON_START hp in
    optimizer0 <- torch.optim_Adam net0 (LEARNING_RATE hp) ;;
    Ok (mk net0 tgt_net0 agent0 epsilon0 optimizer0 [] 0 0 ts0 None).

  (** Lines 169-170. *)
Definition epsilon_schedule (frame_idx : Z) : result Q :=
    if EPSILON_DECAY_LAST_FRAME hp =? 0 then Raise "ZeroDivisionError"
    else Ok (py_max (EPSILON_FINAL hp)
               (EPSILON_START hp -
                inject_Z frame_idx / inject_Z (EPSILON_DECAY_LAST_FRAME hp))%Q).

  (** Lines 173-197, for an episode reward that is not [None]. Printing, the
      tensorboard writer and the checkpoint file leave the variables
      unchanged and are left out. *)
Definition episode_done (dr : Draws) (reward : Q) (s : t) : t * outcome :=
    let total_rewards' := total_rewards s ++ [reward] in
    let s1 := mk (net s) (tgt_net s) (agent s) (epsilon s) (optimizer s)
                 total_rewards' (frame_idx s) (ts_frame s) (ts s)
                 (best_m_reward s) in
    if Qeq_bool (now dr - ts s) 0 then (s1, Raised "ZeroDivisionError")
    else
      let m_reward := mean_last_100 total_rewards' in
      let best' :=
        match best_m_reward s with
        | None => Some m_reward
        | Some best => if Qlt_bool best m_reward then Some m_reward
                       else Some best
        end in
      let s2 := mk (net s) (tgt_net s) (agent s) (epsilon s) (optimizer s)
                   total_rewards' (frame_idx s) (frame_idx s) (now' dr)
                   best' in
      if Qlt_bool (inject_Z (MEAN_REWARD_BOUND hp)) m_reward then (s2, Break)
      else (s2, Continue).

  (** Lines 199-209: the warm-up gate, the synchronisation of the target
      network and one optimisation step. *)
Definition train (dr : Draws) (s : t) : t * outcome :=
    if (Z.of_nat (ExperienceBuffer.__len__ (buffer s)) <? REPLAY_START_SIZE hp)
    then (s, Continue)
    else if SYNC_TARGET_FRAMES hp =? 0 then (s, Raised "ZeroDivisionError")
    else
      let tgt_net' :=
        if frame_idx s mod SYNC_TARGET_FRAMES hp =? 0 then net s
        else tgt_net s in
      let s1 := mk (net s) tgt_net' (agent s) (epsilon s) (optimizer s)
                   (total_rewards s) (frame_idx s) (ts_frame s) (ts s)
                   (best_m_reward s) in
      match fst (ExperienceBuffer.sample (BATCH_SIZE hp) (perm dr) (buffer s)) with
      | Raise e => (s1, Raised e)
      | Ok batch =>
          let loss := fun p =>
            calc_loss hp batch (torch.forward p) (torch.forward tgt_net') in
          match loss (net s) with
          | Raise e => (s1, Raised e)
          | Ok loss_t =>
              let '(net', optimizer') :=
                torch.backward_step (optimizer s) loss (net s) in
              (mk net' tgt_net' (agent s) (epsilon s) optimizer'
                  (total_rewards s) (frame_idx s) (ts_frame s) (ts s)
                  (best_m_reward s), Continue)
          end
      end.

  (** One iteration of [while True] (lines 168-209): the variables after it
      and how it ended. *)
Definition loop_body (dr : Draws) (s : t) : t * outcome :=
    let frame_idx' := frame_idx s + 1 in
    let s0 := mk (net s) (tgt_net s) (agent s) (epsilon s) (optimizer s)
                 (total_rewards s) frame_idx' (ts_frame s) (ts s)
                 (best_m_reward s) in
    match epsilon_schedule frame_idx' with
    | Raise e => (s0, Raised e)
    | Ok epsilon' =>
        let '(reward, agent') :=
          Agent.play_step (torch.forward (net s)) epsilon' (u dr) (agent s) in
        let s1 := mk (net s) (tgt_net s) agent' epsilon' (optimizer s)
                     (total_rewards s) frame_idx' (ts_frame s) (ts s)
                     (best_m_reward s) in
        match reward with
        | None => train dr s1
        | Some r =>
            match episode_done dr r s1 with
            | (s2, Continue) => train dr s2
            | stopped => stopped
            end
        end
    end.

  (** The loop, for as long as there are draws. *)
Fixpoint loop (draws : list Draws) (s : t) : t * outcome :=
    match draws with
    | [] => (s, Continue)
    | dr :: draws' =>
        match loop_body dr s with
        | (s', Continue) => loop draws' s'
        | stopped => stopped
        end
    end.
End Main.
Arguments t Obs E Params Opt : clear implicits.
End Main.

(** ** The name of the checkpoint file *)

Definition DEFAULT_ENV_NAME : string := "ALE/Pong-v5".

(** [str.split(sep)] for a separator of one character: the pieces between
    the occurrences of [sep], empty pieces included. *)
Fixpoint py_split (sep : ascii) (s : string) : list string :=
  match s with
  | EmptyString => [EmptyString]
  | String c s' =>
      if Ascii.eqb c sep then EmptyString :: py_split sep s'
      else match py_split sep s' with
           | piece :: pieces => String c piece :: pieces
           | [] => [String c EmptyString]
           end
  end.

(** Line 189: [args.env.split('/')[-1]], the text that the name of the
    checkpoint file starts with. *)
Definition checkpoint_stem (env_name : string) : string :=
  last (py_split "/" env_name) EmptyString.

(** ** Sequences of calls and small instances *)

(** A sequence of [append] calls, oldest first. *)
Definition appends {Obs : Type} (xs : list (Experience.t Obs))
    (b : ExperienceBuffer.t Obs) : ExperienceBuffer.t Obs :=
  fold_left (fun b x => ExperienceBuffer.append x b) xs b.

(** The rewards of a sequence of calls of [play_step]. *)
Definition rewards_of {Obs : Type}
    (trace : list (Experience.t Obs * option Q)) : list Q :=
  map (fun p => Experience.reward (fst p)) trace.

Definition capacity_of {Obs : Type} (b : ExperienceBuffer.t Obs) : nat :=
  deque.maxlen (ExperienceBuffer.buffer b).

(** An environment whose observation is the number of steps taken in the
    episode; every step pays 1 and the fifth one ends the episode. *)
Module FiveSteps.
#[export] Instance env : gym.Env nat nat := {|
  gym.reset := fun _ => (0%nat, 0%nat);
  gym.step := fun _ n => ((S n, 1%Q, (S n =? 5)%nat, false), S n);
  gym.action_space_sample := fun n => (0%nat, n)
|}.

(** A network with one parameter, a single action, and an optimiser that
    counts its steps in the parameter. *)
#[export] Instance learner : torch.Learner nat unit nat := {|
  torch.forward := fun p _ => torch.row (inject_Z (Z.of_nat p)) [];
  torch.Adam := fun _ _ => tt;
  torch.backward_step := fun opt _ p => (S p, opt)
|}.

Definition net : nat -> torch.qvals := torch.forward 1%nat.

(** Greedy calls: [epsilon = 0], [u = 1/2]. *)
Definition greedy (n : nat) : list (Q * Q) := repeat (0%Q, 1 # 2) n.

(** An agent on a new buffer of capacity 3, and its first [n] calls. *)
Definition buffer0 : ExperienceBuffer.t nat :=
  ExperienceBuffer.mk (deque.mk 3 []).

Definition agent0 : Agent.t nat nat := Agent.__init__ 0%nat buffer0.

Definition play (n : nat)
  : list (Experience.t nat * option Q) * Agent.t nat nat :=
  Agent.play_steps net (greedy n) agent0.

(** The fifth call: what the environment returns in it, and the call. *)
Definition fifth_step : (nat * Q * bool * bool) * nat :=
  let '(action, env1) :=
    Agent.select_action net 0 (1 # 2) (snd (play 4)) in
  gym.step action env1.

Definition fifth_call : option Q * Agent.t nat nat :=
  Agent.play_step net 0 (1 # 2) (snd (play 4)).

(** The draws of iteration [k] of the main loop: the clock reads [k] and
    the generator draws the identity permutation of [range(k)]. *)
Definition draws_at (k : nat) : Draws :=
  mkDraws (1 # 2) (inject_Z (Z.of_nat k)) (inject_Z (Z.of_nat k)) (seq 0 k).

Definition draws_upto (n : nat) : list Draws := map draws_at (seq 1 n).

(** The constants of the source with a warm-up of 2 transitions and batches
    of 2. *)
Definition eager_constants : Hyper :=
  mkHyper 19 (99 # 100) 2 10000 (1 # 10000) 1000 2 150000 1 (1 # 100).

(** Constants that are all out of range: no capacity, no batch, no decay
    horizon. *)
Definition zero_constants : Hyper :=
  mkHyper 19 (99 # 100) 0 0 (1 # 10000) 1000 10000 0 1 (1 # 100).

(** The program started with an online network of parameter 1 and a target
    network of parameter 0. *)
Definition started_with (hp : Hyper) : result (Main.t nat nat nat unit) :=
  Main.startup hp 0%nat 1%nat 0%nat 0%Q.

(** The variables when the loop is entered, for a replay size of 10000. *)
Definition start : Main.t nat nat nat unit :=
  Main.mk 1%nat 0%nat
    (Agent.__init__ 0%nat
       (ExperienceBuffer.mk (deque.mk (Z.to_nat 10000) [])))
    1%Q tt [] 0 0 0%Q None.

(** The variables after [n] iterations, and how the last one ended. *)
Definition after (hp : Hyper) (n : nat) : Main.t nat nat nat unit * outcome :=
  Main.loop hp (draws_upto n) start.

(** Iteration 1000. *)
Definition iteration_1000 (hp : Hyper) : Main.t nat nat nat unit * outcome :=
  Main.loop_body hp (draws_at 1000) (fst (after hp 999)).

(** The variables when the loop is entered with [zero_constants]. *)
Definition start_zero : Main.t nat nat nat unit :=
  Main.mk 1%nat 0%nat
    (Agent.__init__ 0%nat (ExperienceBuffer.mk (deque.mk 0 [])))
    1%Q tt [] 0 0 0%Q None.

(** The constants of the source with a reward bound of 4, and the fifth
    iteration of the program with them. *)
Definition easy_constants : Hyper :=
  mkHyper 4 (99 # 100) 32 10000 (1 # 10000) 1000 10000 150000 1 (1 # 100).

Definition before_iteration_5 : Main.t nat nat nat unit :=
  fst (Main.loop easy_constants (draws_upto 4) start).

Definition iteration_5 : Main.t nat nat nat unit * outcome :=
  Main.loop_body easy_constants (draws_at 5) before_iteration_5.

(** The training part of an iteration after the third one of the program
    with [eager_constants]. *)
Definition training_after_3 : Main.t nat nat nat unit * outcome :=
  Main.train eager_constants (draws_at 3) (fst (after eager_constants 3)).

(** The first iteration of the loop with [zero_constants]. *)
Definition first_zero_iteration : Main.t nat nat nat unit * outcome :=
  Main.loop_body zero_constants (draws_at 1) start_zero.
End FiveSteps.

(** An environment that never terminates and reports a truncation at every
    step. *)
Module TimeLimit.
#[export] Instance env : gym.Env nat nat := {|
  gym.reset := fun _ => (0%nat, 0%nat);
  gym.step := fun _ n => ((S n, 0%Q, false, true), S n);
  gym.action_space_sample := fun n => (0%nat, n)
|}.

Definition agent0 : Agent.t nat nat :=
  Agent.__init__ 0%nat (ExperienceBuffer.mk (deque.mk 3 [])).

(** One random call: [epsilon = 1], [u = 0]. *)
Definition stepped : option Q * Agent.t nat nat :=
  Agent.play_step (fun _ => torch.row 0 []) 1 0 agent0.
End TimeLimit.

(* ================================================================== *)
(** * Properties *)

(** ** The bounded deque and the replay buffer *)

Section BufferFacts.
Context {Obs : Type}.
Implicit Types (b : ExperienceBuffer.t Obs) (x : Experience.t Obs).
Implicit Types (xs : list (Experience.t Obs)).

Lemma contents_append b x :
  ExperienceBuffer.wf b ->
  ExperienceBuffer.contents (ExperienceBuffer.append x b) =
  skipn (length (ExperienceBuffer.contents b) + 1 - capacity_of b)
        (ExperienceBuffer.contents b ++ [x]).
Proof.
  destruct b as [[M l]].
  unfold ExperienceBuffer.wf, deque.wf, ExperienceBuffer.contents, capacity_of,
    ExperienceBuffer.append, deque.append.
  cbn [ExperienceBuffer.buffer deque.items deque.maxlen]. intros Hwf.
  rewrite length_app. cbn [length].
  destruct (Nat.ltb_spec M (length l + 1)) as [Hlt | Hge].
  - replace (length l + 1 - M)%nat with 1%nat by lia.
    destruct l; reflexivity.
  - replace (length l + 1 - M)%nat with 0%nat by lia. reflexivity.
Qed.

Lemma capacity_append b x :
  capacity_of (ExperienceBuffer.append x b) = capacity_of b.
Proof. reflexivity. Qed.

Lemma wf_append b x :
  ExperienceBuffer.wf b -> ExperienceBuffer.wf (ExperienceBuffer.append x b).
Proof.
  intros Hwf. unfold ExperienceBuffer.wf, deque.wf.
  change (length (ExperienceBuffer.contents (ExperienceBuffer.append x b))
          <= capacity_of (ExperienceBuffer.append x b))%nat.
  rewrite contents_append, capacity_append by assumption.
  rewrite length_skipn, length_app. cbn. lia.
Qed.

Lemma len_append b x :
  ExperienceBuffer.wf b ->
  ExperienceBuffer.__len__ (ExperienceBuffer.append x b) =
  Nat.min (ExperienceBuffer.__len__ b + 1) (capacity_of b).
Proof.
  intros Hwf.
  change (length (ExperienceBuffer.contents (ExperienceBuffer.append x b)) =
          Nat.min (length (ExperienceBuffer.contents b) + 1) (capacity_of b)).
  rewrite contents_append by assumption.
  rewrite length_skipn, length_app. cbn. lia.
Qed.

Lemma capacity_appends xs : forall b, capacity_of (appends xs b) = capacity_of b.
Proof.
  induction xs as [| x xs IH]; intros b; [reflexivity |].
  change (appends (x :: xs) b) with (appends xs (ExperienceBuffer.append x b)).
  now rewrite IH, capacity_append.
Qed.

Lemma wf_appends xs : forall b,
  ExperienceBuffer.wf b -> ExperienceBuffer.wf (appends xs b).
Proof.
  induction xs as [| x xs IH]; intros b Hwf; [assumption |].
  change (appends (x :: xs) b) with (appends xs (ExperienceBuffer.append x b)).
  apply IH, wf_append, Hwf.
Qed.

(** After any sequence of appends the buffer holds the last [capacity]
    elements of everything it was given, oldest first. *)
Lemma contents_appends xs : forall b,
  ExperienceBuffer.wf b ->
  ExperienceBuffer.contents (appends xs b) =
  skipn (length (ExperienceBuffer.contents b ++ xs) - capacity_of b)
        (ExperienceBuffer.contents b ++ xs).
Proof.
  induction xs as [| x xs IH]; intros b Hwf.
  - cbn. rewrite app_nil_r.
    replace (_ - _)%nat with 0%nat; [reflexivity |].
    unfold ExperienceBuffer.wf, deque.wf, capacity_of,
      ExperienceBuffer.contents in *. lia.
  - change (appends (x :: xs) b)
      with (appends xs (ExperienceBuffer.append x b)).
    rewrite IH by (apply wf_append, Hwf).
    rewrite capacity_append, contents_append by assumption.
    set (c := ExperienceBuffer.contents b).
    set (M := capacity_of b).
    assert (Hc : (length c <= M)%nat) by exact Hwf.
    replace (c ++ x :: xs) with ((c ++ [x]) ++ xs)
      by (rewrite <- app_assoc; reflexivity).
    set (j := (length c + 1 - M)%nat).
    assert (Hj : (j <= length (c ++ [x]))%nat)
      by (rewrite length_app; cbn; lia).
    assert (Hsk : skipn j (c ++ [x]) ++ xs = skipn j ((c ++ [x]) ++ xs)).
    { rewrite (skipn_app j (c ++ [x]) xs).
      replace (j - length (c ++ [x]))%nat with 0%nat by lia. reflexivity. }
    rewrite Hsk, skipn_skipn. f_equal.
    rewrite length_skipn. subst j.
    rewrite !length_app in *. cbn in *. lia.
Qed.
End BufferFacts.

(** C2. A buffer created with capacity [C > 0] never holds more than [C]
    transitions, whatever sequence of [append] calls it receives (every
    prefix [firstn n xs] of every sequence [xs]); and after [C + k] calls,
    [k > 0], it holds exactly the last [C] transitions appended (the first
    [k] are gone), oldest first. *)
Theorem C2_capacity_and_fifo {Obs : Type} (capacity : Z)
    (xs : list (Experience.t Obs)) :
  0 < capacity ->
  exists b0,
    ExperienceBuffer.__init__ capacity = Ok b0 /\
    (forall n,
       Z.of_nat (ExperienceBuffer.__len__ (appends (firstn n xs) b0))
       <= capacity) /\
    (forall k, (0 < k)%nat ->
       Z.of_nat (length xs) = capacity + Z.of_nat k ->
       ExperienceBuffer.contents (appends xs b0) = skipn k xs /\
       Z.of_nat (length (skipn k xs)) = capacity).
Proof.
  intros Hpos.
  unfold ExperienceBuffer.__init__, deque.make.
  destruct (Z.ltb_spec capacity 0) as [Hneg | _]; [lia |].
  cbn [bind]. eexists. split; [reflexivity |].
  set (b0 := ExperienceBuffer.mk (deque.mk (Z.to_nat capacity) [])).
  assert (Hwf : ExperienceBuffer.wf b0)
    by (unfold ExperienceBuffer.wf, deque.wf; cbn; lia).
  split.
  - intros n.
    pose proof (wf_appends (firstn n xs) Hwf) as Hn.
    unfold ExperienceBuffer.wf, deque.wf in Hn.
    change (deque.maxlen _) with (capacity_of (appends (firstn n xs) b0)) in Hn.
    rewrite capacity_appends in Hn.
    unfold ExperienceBuffer.__len__, deque.len.
    change (capacity_of b0) with (Z.to_nat capacity) in Hn. lia.
  - intros k Hk Hlen.
    rewrite contents_appends by assumption.
    change (ExperienceBuffer.contents b0) with (@nil (Experience.t Obs)).
    change (capacity_of b0) with (Z.to_nat capacity).
    cbn [app].
    replace (length xs - Z.to_nat capacity)%nat with k by lia.
    split; [reflexivity |]. rewrite length_skipn. lia.
Qed.

(** C2 on three transitions appended to a buffer of capacity 2. *)
Lemma C2_capacity_and_fifo_witness :
  0 < 2 /\
  exists b0 : ExperienceBuffer.t nat,
    ExperienceBuffer.__init__ 2 = Ok b0 /\
    ExperienceBuffer.contents
      (appends [Experience.mk 0%nat 0%nat 1%Q false 1%nat;
                Experience.mk 1%nat 0%nat 1%Q false 2%nat;
                Experience.mk 2%nat 0%nat 1%Q false 3%nat] b0) =
    [Experience.mk 1%nat 0%nat 1%Q false 2%nat;
     Experience.mk 2%nat 0%nat 1%Q false 3%nat].
Proof.
  split; [reflexivity |].
  destruct (@C2_capacity_and_fifo nat 2
              [Experience.mk 0%nat 0%nat 1%Q false 1%nat;
               Experience.mk 1%nat 0%nat 1%Q false 2%nat;
               Experience.mk 2%nat 0%nat 1%Q false 3%nat] eq_refl)
    as (b0 & Hinit & _ & Hfifo).
  exists b0. split; [exact Hinit |].
  exact (proj1 (Hfifo 1%nat (le_n 1) eq_refl)).
Defined.

(** ** Sampling *)

Section SampleFacts.
Context {Obs : Type}.
Implicit Types (b : ExperienceBuffer.t Obs) (d : deque.t (Experience.t Obs)).

Lemma In_firstn (A : Type) (n : nat) (l : list A) (a : A) :
  In a (firstn n l) -> In a l.
Proof.
  intros Hin. rewrite <- (firstn_skipn n l). apply in_or_app. now left.
Qed.

Lemma NoDup_firstn (A : Type) (n : nat) (l : list A) :
  NoDup l -> NoDup (firstn n l).
Proof.
  intros Hnd. rewrite <- (firstn_skipn n l) in Hnd.
  exact (NoDup_app_remove_r _ _ Hnd).
Qed.

Lemma mapM_getitem d (indices : list nat) :
  Forall (fun idx => (idx < deque.len d)%nat) indices ->
  exists rows,
    mapM (deque.getitem d) indices = Ok rows /\
    Forall2 (fun idx e => nth_error (deque.items d) idx = Some e)
            indices rows.
Proof.
  induction 1 as [| idx indices Hidx _ (rows & Hrows & Hall)].
  - exists []. split; [reflexivity | constructor].
  - unfold deque.len in Hidx.
    destruct (nth_error (deque.items d) idx) as [e |] eqn:He.
    + exists (e :: rows). split.
      * cbn [mapM]. unfold deque.getitem at 1. rewrite He. cbn [bind].
        rewrite Hrows. reflexivity.
      * constructor; assumption.
    + apply nth_error_None in He. lia.
Qed.

(** What a permutation of [range(m)] gives to [np.random.choice]. *)
Lemma choice_indices (perm : list nat) (m k : nat) :
  Permutation perm (seq 0 m) -> (k <= m)%nat ->
  length (firstn k perm) = k /\ NoDup (firstn k perm) /\
  Forall (fun idx => (idx < m)%nat) (firstn k perm).
Proof.
  intros Hperm Hk.
  pose proof (Permutation_length Hperm) as Hlen. rewrite length_seq in Hlen.
  split; [rewrite length_firstn; lia |]. split.
  - apply NoDup_firstn.
    exact (Permutation_NoDup (Permutation_sym Hperm) (seq_NoDup m 0)).
  - apply Forall_forall. intros idx Hin.
    apply In_firstn in Hin.
    apply (Permutation_in _ Hperm), in_seq in Hin. lia.
Qed.
End SampleFacts.

(** C3. On a buffer that holds [m] transitions, [sample(n)] with
    [0 < n <= m] returns the fields of [n] transitions read at [n] pairwise
    distinct positions of the current contents, and leaves the buffer as it
    was. The random permutation of [range(m)] behind [np.random.choice] is
    [perm]. *)
Theorem C3_sample_distinct_from_contents {Obs : Type}
    (b : ExperienceBuffer.t Obs) (n : Z) (perm : list nat) :
  0 < n <= Z.of_nat (ExperienceBuffer.__len__ b) ->
  Permutation perm (seq 0 (ExperienceBuffer.__len__ b)) ->
  exists indices rows,
    Z.of_nat (length indices) = n /\
    NoDup indices /\
    Forall2 (fun idx e => nth_error (ExperienceBuffer.contents b) idx = Some e)
            indices rows /\
    ExperienceBuffer.sample n perm b =
    (Ok (map (@Experience.state Obs) rows,
         map (@Experience.action Obs) rows,
         map (@Experience.reward Obs) rows,
         map Z.b2z (map (@Experience.done Obs) rows),
         map (@Experience.new_state Obs) rows),
     b).
Proof.
  intros Hn Hperm.
  destruct (@choice_indices perm (ExperienceBuffer.__len__ b) (Z.to_nat n) Hperm)
    as (Hlen & Hnd & Hlt); [lia |].
  destruct (mapM_getitem (ExperienceBuffer.buffer b) Hlt)
    as (rows & Hrows & Hall).
  exists (firstn (Z.to_nat n) perm), rows.
  split; [lia |]. split; [exact Hnd |]. split; [exact Hall |].
  unfold ExperienceBuffer.sample, np_random_choice.
  change (deque.len (ExperienceBuffer.buffer b))
    with (ExperienceBuffer.__len__ b).
  destruct (Z.ltb_spec n 0) as [Hneg | _]; [lia |].
  destruct (Z.ltb_spec (Z.of_nat (ExperienceBuffer.__len__ b)) n)
    as [Hbig | _]; [lia |].
  cbn [orb bind]. rewrite Hrows. cbn [bind].
  assert (Hrl : length rows = Z.to_nat n)
    by (rewrite <- (Forall2_length Hall); exact Hlen).
  destruct rows as [| e rows]; [cbn in Hrl; lia |].
  reflexivity.
Qed.

(** C3 on a buffer of three transitions, with the permutation [2; 0; 1]:
    the batch of size 2 is made of the transitions at positions 2 and 0. *)
Lemma C3_sample_distinct_from_contents_witness :
  exists indices rows,
    Z.of_nat (length indices) = 2 /\
    NoDup indices /\
    Forall2 (fun idx e =>
               nth_error (ExperienceBuffer.contents
                            (Agent.exp_buffer (snd (FiveSteps.play 3))))
                         idx = Some e) indices rows /\
    ExperienceBuffer.sample 2 [2; 0; 1]%nat
      (Agent.exp_buffer (snd (FiveSteps.play 3))) =
    (Ok (map (@Experience.state nat) rows,
         map (@Experience.action nat) rows,
         map (@Experience.reward nat) rows,
         map Z.b2z (map (@Experience.done nat) rows),
         map (@Experience.new_state nat) rows),
     Agent.exp_buffer (snd (FiveSteps.play 3))).
Proof.
  apply (@C3_sample_distinct_from_contents nat
           (Agent.exp_buffer (snd (FiveSteps.play 3))) 2 [2; 0; 1]%nat).
  - vm_compute. split; [reflexivity | discriminate].
  - vm_compute.
    apply (perm_trans (l' := [0; 2; 1]%nat)).
    + apply perm_swap.
    + apply perm_skip, perm_swap.
Defined.

(** C4 as stated fails: asking an empty buffer for one transition raises
    numpy's [ValueError], not an [InsufficientDataError]. *)
Lemma C4_counterexample :
  Z.of_nat (ExperienceBuffer.__len__ FiveSteps.buffer0) < 1 /\
  fst (ExperienceBuffer.sample 1 [] FiveSteps.buffer0) = Raise "ValueError" /\
  fst (ExperienceBuffer.sample 1 [] FiveSteps.buffer0)
  <> Raise "InsufficientDataError".
Proof.
  split; [reflexivity |]. split; [reflexivity |].
  cbn. discriminate.
Qed.

(** C4, amended. On a buffer that holds [m] transitions, [sample(batch_size)]
    with [batch_size > m] fails with the [ValueError] that
    [np.random.choice] raises (no value is returned, whatever the generator
    would have drawn, and whether or not the caller checked the size of the
    buffer), and the buffer is left as it was. *)
Theorem C4_sample_too_many_raises {Obs : Type}
    (b : ExperienceBuffer.t Obs) (batch_size : Z) (perm : list nat) :
  Z.of_nat (ExperienceBuffer.__len__ b) < batch_size ->
  ExperienceBuffer.sample batch_size perm b = (Raise "ValueError", b).
Proof.
  intros Hbig. unfold ExperienceBuffer.sample, np_random_choice.
  change (deque.len (ExperienceBuffer.buffer b))
    with (ExperienceBuffer.__len__ b).
  destruct (Z.ltb_spec (Z.of_nat (ExperienceBuffer.__len__ b)) batch_size)
    as [_ | Hle]; [| lia].
  rewrite orb_true_r. reflexivity.
Qed.

(** C4 (amended) on the buffer of three transitions and a batch of 32. *)
Lemma C4_sample_too_many_raises_witness :
  ExperienceBuffer.sample 32 [2; 0; 1]%nat
    (Agent.exp_buffer (snd (FiveSteps.play 3))) =
  (Raise "ValueError", Agent.exp_buffer (snd (FiveSteps.play 3))).
Proof.
  apply (@C4_sample_too_many_raises nat
           (Agent.exp_buffer (snd (FiveSteps.play 3))) 32 [2; 0; 1]%nat).
  vm_compute. reflexivity.
Defined.

(** ** The agent *)

Section AgentFacts.
Context {Obs E : Type} `{gym.Env Obs E}.
Implicit Types (self : Agent.t Obs E) (net : Obs -> torch.qvals).

(** What one call does, in terms of what the environment returned. *)
Lemma play_step_eq net (epsilon u : Q) self :
  let '(action, env1) := Agent.select_action net epsilon u self in
  let '(new_state, reward, terminated, truncated, env2) :=
    gym.step action env1 in
  let exp := Experience.mk (Agent.state self) action reward terminated
                           new_state in
  let stepped :=
    Agent.mk env2 (ExperienceBuffer.append exp (Agent.exp_buffer self))
             new_state (Agent.total_reward self + reward)%Q in
  Agent.play_step net epsilon u self =
  if terminated
  then (Some (Agent.total_reward self + reward)%Q, Agent._reset stepped)
  else (None, stepped).
Proof.
  unfold Agent.play_step.
  destruct (Agent.select_action net epsilon u self) as [action env1].
  destruct (gym.step action env1) as [[[[new_state reward] terminated] truncated] env2].
  reflexivity.
Qed.

Lemma reset_exp_buffer self :
  Agent.exp_buffer (Agent._reset self) = Agent.exp_buffer self.
Proof.
  unfold Agent._reset. destruct (gym.reset (Agent.env self)). reflexivity.
Qed.

Lemma reset_total_reward self : Agent.total_reward (Agent._reset self) = 0%Q.
Proof.
  unfold Agent._reset. destruct (gym.reset (Agent.env self)). reflexivity.
Qed.

Lemma reset_state self :
  (Agent.state (Agent._reset self), Agent.env (Agent._reset self)) =
  gym.reset (Agent.env self).
Proof.
  unfold Agent._reset. destruct (gym.reset (Agent.env self)). reflexivity.
Qed.
End AgentFacts.

(** C5. In every call of [play_step], the transition handed to the buffer
    carries [done = terminated], whatever [truncated] is: the buffer after
    the call is the buffer before it with
    [(state, action, reward, terminated, next_state)] appended. *)
Theorem C5_done_is_terminated {Obs E : Type} `{gym.Env Obs E}
    (net : Obs -> torch.qvals) (epsilon u : Q) (self : Agent.t Obs E) :
  let '(action, env1) := Agent.select_action net epsilon u self in
  let '(new_state, reward, terminated, truncated, env2) :=
    gym.step action env1 in
  Agent.exp_buffer (snd (Agent.play_step net epsilon u self)) =
  ExperienceBuffer.append
    (Experience.mk (Agent.state self) action reward terminated new_state)
    (Agent.exp_buffer self).
Proof.
  pose proof (play_step_eq net epsilon u self) as Heq.
  destruct (Agent.select_action net epsilon u self) as [action env1].
  destruct (gym.step action env1) as [[[[new_state reward] terminated] truncated] env2].
  cbv zeta in Heq. rewrite Heq.
  destruct terminated; cbn [snd]; [apply reset_exp_buffer | reflexivity].
Qed.

(** A truncated step that is not terminated is stored with [done = false]. *)
Example truncated_step_stored_not_done :
  map (@Experience.done nat)
      (ExperienceBuffer.contents (Agent.exp_buffer (snd TimeLimit.stepped))) =
  [false].
Proof. reflexivity. Qed.

(** C10 as stated fails on a step that ends the episode: the environment
    returns the observation 5 as next state, and after the call the agent's
    state is the first observation of the new episode, 0. *)
Lemma C10_counterexample :
  fst FiveSteps.fifth_step = (5%nat, 1%Q, true, false) /\
  Agent.state (snd FiveSteps.fifth_call) = 0%nat /\
  Agent.state (snd FiveSteps.fifth_call)
  <> fst (fst (fst (fst FiveSteps.fifth_step))).
Proof.
  split; [reflexivity |]. split; [reflexivity |].
  vm_compute. discriminate.
Qed.

(** C10, amended. Every call of [play_step], random or greedy, whatever
    [terminated] and [truncated] are, appends exactly one transition to the
    buffer, whose occupancy becomes [min(previous + 1, capacity)]; the
    agent's state after the call is the returned next state when
    [terminated] is false, and the first observation of [env.reset()] when
    [terminated] is true. *)
Theorem C10_play_step_appends_one {Obs E : Type} `{gym.Env Obs E}
    (net : Obs -> torch.qvals) (epsilon u : Q) (self : Agent.t Obs E) :
  ExperienceBuffer.wf (Agent.exp_buffer self) ->
  let '(action, env1) := Agent.select_action net epsilon u self in
  let '(new_state, reward, terminated, truncated, env2) :=
    gym.step action env1 in
  let self' := snd (Agent.play_step net epsilon u self) in
  Agent.exp_buffer self' =
    ExperienceBuffer.append
      (Experience.mk (Agent.state self) action reward terminated new_state)
      (Agent.exp_buffer self) /\
  ExperienceBuffer.__len__ (Agent.exp_buffer self') =
    Nat.min (ExperienceBuffer.__len__ (Agent.exp_buffer self) + 1)
            (capacity_of (Agent.exp_buffer self)) /\
  Agent.state self' =
    (if terminated then fst (gym.reset env2) else new_state).
Proof.
  intros Hwf.
  pose proof (play_step_eq net epsilon u self) as Heq.
  destruct (Agent.select_action net epsilon u self) as [action env1].
  destruct (gym.step action env1) as [[[[new_state reward] terminated] truncated] env2].
  cbv zeta in Heq. cbv zeta. rewrite Heq.
  destruct terminated; cbn [snd].
  - rewrite reset_exp_buffer. cbn [Agent.exp_buffer].
    split; [reflexivity |]. split; [now apply len_append |].
    unfold Agent._reset. cbn [Agent.env].
    destruct (gym.reset env2). reflexivity.
  - cbn [Agent.exp_buffer Agent.state].
    split; [reflexivity |]. split; [| reflexivity].
    now apply len_append.
Qed.

(** C10 (amended) on the fifth call of the five-step environment. *)
Lemma C10_play_step_appends_one_witness :
  ExperienceBuffer.__len__ (Agent.exp_buffer (snd FiveSteps.fifth_call)) =
    3%nat /\
  Agent.state (snd FiveSteps.fifth_call) = 0%nat.
Proof.
  pose proof (@C10_play_step_appends_one nat nat FiveSteps.env
                FiveSteps.net 0%Q (1 # 2) (snd (FiveSteps.play 4))) as Hc.
  change (Agent.play_step FiveSteps.net 0 (1 # 2) (snd (FiveSteps.play 4)))
    with FiveSteps.fifth_call in Hc.
  destruct (Agent.select_action FiveSteps.net 0 (1 # 2) (snd (FiveSteps.play 4)))
    as [action env1] eqn:Hsel.
  destruct (gym.step action env1) as [[[[new_state reward] terminated] truncated] env2] eqn:Hstep.
  assert (Hwf : ExperienceBuffer.wf (Agent.exp_buffer (snd (FiveSteps.play 4)))).
  { unfold ExperienceBuffer.wf, deque.wf. vm_compute. repeat constructor. }
  destruct (Hc Hwf) as (_ & Hlen & Hst).
  split.
  - rewrite Hlen. reflexivity.
  - rewrite Hst. vm_compute in Hsel. inversion Hsel; subst.
    vm_compute in Hstep. inversion Hstep; subst. reflexivity.
Defined.

(** ** Episode rewards *)

Section EpisodeFacts.
Context {Obs E : Type} `{gym.Env Obs E}.
Implicit Types (self : Agent.t Obs E) (net : Obs -> torch.qvals).
Implicit Types (trace : list (Experience.t Obs * option Q)).

Lemma play_steps_cons net (epsilon u : Q) (draws : list (Q * Q)) self :
  let '(action, env1) := Agent.select_action net epsilon u self in
  let '(new_state, reward, terminated, truncated, env2) :=
    gym.step action env1 in
  let call := Agent.play_step net epsilon u self in
  Agent.play_steps net ((epsilon, u) :: draws) self =
  ((Experience.mk (Agent.state self) action reward terminated new_state,
    fst call) :: fst (Agent.play_steps net draws (snd call)),
   snd (Agent.play_steps net draws (snd call))).
Proof.
  cbn [Agent.play_steps].
  destruct (Agent.select_action net epsilon u self) as [action env1].
  destruct (gym.step action env1) as [[[[new_state reward] terminated] truncated] env2].
  cbv zeta.
  destruct (Agent.play_step net epsilon u self) as [done_reward self1].
  cbn [fst snd].
  destruct (Agent.play_steps net draws self1) as [trace self2].
  reflexivity.
Qed.

Lemma play_steps_length net (draws : list (Q * Q)) : forall self,
  length (fst (Agent.play_steps net draws self)) = length draws.
Proof.
  induction draws as [| [epsilon u] draws IH]; intros self; [reflexivity |].
  pose proof (play_steps_cons net epsilon u draws self) as Hc.
  destruct (Agent.select_action net epsilon u self) as [action env1].
  destruct (gym.step action env1) as [[[[new_state reward] terminated] truncated] env2].
  cbv zeta in Hc. rewrite Hc. cbn [fst length]. now rewrite IH.
Qed.

(** A run of calls in which only the last one is terminated: the earlier
    calls return [None], the last one returns the accumulator plus the
    rewards of the run, added in order, and leaves a reset agent. *)
Lemma play_steps_episode net (draws : list (Q * Q)) :
  forall self pre e r self',
    Agent.play_steps net draws self = (pre ++ [(e, r)], self') ->
    Forall (fun p => Experience.done (fst p) = false) pre ->
    Experience.done e = true ->
    Forall (fun p => snd p = None) pre /\
    r = Some (fold_left Qplus (rewards_of (pre ++ [(e, r)]))
                        (Agent.total_reward self)) /\
    Agent.total_reward self' = 0%Q /\
    exists env2, (Agent.state self', Agent.env self') = gym.reset env2.
Proof.
  induction draws as [| [epsilon u] draws IH];
    intros self pre e r self' Hrun Hpre He.
  - cbn in Hrun. destruct pre; inversion Hrun.
  - pose proof (play_steps_cons net epsilon u draws self) as Hc.
    pose proof (play_step_eq net epsilon u self) as Hp.
    destruct (Agent.select_action net epsilon u self) as [action env1].
    destruct (gym.step action env1) as [[[[new_state reward] terminated] truncated] env2].
    cbv zeta in Hc, Hp. rewrite Hc in Hrun. clear Hc.
    destruct pre as [| p pre].
    + cbn [app] in Hrun. inversion Hrun as [[He1 Hr Htr Hs]].
      assert (Hnil : draws = []).
      { apply length_zero_iff_nil.
        rewrite <- (play_steps_length net draws
                      (snd (Agent.play_step net epsilon u self))).
        rewrite Htr. reflexivity. }
      subst draws. cbn [Agent.play_steps snd] in *.
      rewrite <- He1 in He. cbn [Experience.done] in He. subst terminated.
      rewrite Hp. cbn [fst snd rewards_of map app fold_left Experience.reward].
      split; [constructor |]. split; [reflexivity |].
      split; [apply reset_total_reward |].
      eexists. apply reset_state.
    + cbn [app] in Hrun. inversion Hrun as [[Hp1 Htr Hs]].
      inversion Hpre as [| ? ? Hd Hpre']; subst.
      cbn [fst Experience.done] in Hd. subst terminated.
      rewrite Hp in *. cbn [fst snd] in *.
      match type of Htr with
      | fst (Agent.play_steps net draws ?a) = _ =>
          destruct (IH a pre e r (snd (Agent.play_steps net draws a)))
            as (Hnone & Hsum & Hzero & Hfresh);
            [rewrite <- Htr; apply surjective_pairing
            | assumption | assumption |]
      end.
      split; [constructor; [reflexivity | assumption] |].
      split; [| split; assumption].
      cbn [rewards_of map app fold_left fst Experience.reward].
      exact Hsum.
Qed.
End EpisodeFacts.

(** C6. (1) A call of [play_step] in which the environment reports
    [terminated] returns the accumulator plus the reward of the call, sets
    the accumulator to zero and takes the state from [env.reset()];
    otherwise it returns [None] and keeps accumulating. (2) Hence, counting
    from a reset, the call that ends the episode returns the sum of the
    rewards of all calls since that reset, and the calls before it return
    [None]. (3) [None] is not the reward [0]. (4) In the environment that
    pays 1 per step and terminates at the fifth step, calls 1 to 4 return
    [None], call 5 returns 5, the accumulator is then 0, and after call 6 it
    is 1. *)
Theorem C6_episode_reward_accounting :
  (forall (Obs E : Type) (H : gym.Env Obs E) (net : Obs -> torch.qvals)
          (epsilon u : Q) (self : Agent.t Obs E),
     let '(action, env1) := Agent.select_action net epsilon u self in
     let '(new_state, reward, terminated, truncated, env2) :=
       gym.step action env1 in
     let '(done_reward, self') := Agent.play_step net epsilon u self in
     if terminated
     then done_reward = Some (Agent.total_reward self + reward)%Q /\
          Agent.total_reward self' = 0%Q /\
          (Agent.state self', Agent.env self') = gym.reset env2
     else done_reward = None /\
          Agent.total_reward self' = (Agent.total_reward self + reward)%Q /\
          Agent.state self' = new_state) /\
  (forall (Obs E : Type) (H : gym.Env Obs E) (net : Obs -> torch.qvals)
          (draws : list (Q * Q)) (self self' : Agent.t Obs E)
          (pre : list (Experience.t Obs * option Q))
          (e : Experience.t Obs) (r : option Q),
     Agent.total_reward self = 0%Q ->
     Agent.play_steps net draws self = (pre ++ [(e, r)], self') ->
     Forall (fun p => Experience.done (fst p) = false) pre ->
     Experience.done e = true ->
     Forall (fun p => snd p = None) pre /\
     r = Some (fold_left Qplus (rewards_of (pre ++ [(e, r)])) 0%Q) /\
     Agent.total_reward self' = 0%Q /\
     exists env2, (Agent.state self', Agent.env self') = gym.reset env2) /\
  (@None Q <> Some 0%Q) /\
  (map (fun p => (Experience.reward (fst p), Experience.done (fst p)))
       (fst (FiveSteps.play 6)) =
     [(1%Q, false); (1%Q, false); (1%Q, false); (1%Q, false); (1%Q, true);
      (1%Q, false)] /\
   map snd (fst (FiveSteps.play 6)) =
     [None; None; None; None; Some 5%Q; None] /\
   Agent.total_reward (snd (FiveSteps.play 5)) = 0%Q /\
   Agent.total_reward (snd (FiveSteps.play 6)) = 1%Q).
Proof.
  split; [| split; [| split]].
  - intros Obs E H net epsilon u self.
    pose proof (play_step_eq net epsilon u self) as Hp.
    destruct (Agent.select_action net epsilon u self) as [action env1].
    destruct (gym.step action env1) as [[[[new_state reward] terminated] truncated] env2].
    cbv zeta in Hp. rewrite Hp.
    destruct terminated.
    + split; [reflexivity |]. split; [apply reset_total_reward |].
      apply (reset_state
               (Agent.mk env2
                  (ExperienceBuffer.append
                     (Experience.mk (Agent.state self) action reward true
                        new_state) (Agent.exp_buffer self))
                  new_state (Agent.total_reward self + reward)%Q)).
    + repeat split.
  - intros Obs E H net draws self self' pre e r Hzero Hrun Hpre He.
    pose proof (@play_steps_episode _ _ _ net draws self pre e r self'
                  Hrun Hpre He) as Hep.
    rewrite Hzero in Hep. exact Hep.
  - discriminate.
  - repeat split.
Qed.

(** C6 on the first five calls in the five-step environment. *)
Lemma C6_episode_reward_accounting_witness :
  snd (last (fst (FiveSteps.play 5))
            (Experience.mk 0%nat 0%nat 0%Q false 0%nat, None)) =
  Some 5%Q.
Proof.
  destruct (proj1 (proj2 C6_episode_reward_accounting)
              nat nat FiveSteps.env FiveSteps.net (FiveSteps.greedy 5)
              FiveSteps.agent0 (snd (FiveSteps.play 5))
              [(Experience.mk 0%nat 0%nat 1%Q false 1%nat, None);
               (Experience.mk 1%nat 0%nat 1%Q false 2%nat, None);
               (Experience.mk 2%nat 0%nat 1%Q false 3%nat, None);
               (Experience.mk 3%nat 0%nat 1%Q false 4%nat, None)]
              (Experience.mk 4%nat 0%nat 1%Q true 5%nat)
              (snd (last (fst (FiveSteps.play 5))
                         (Experience.mk 0%nat 0%nat 0%Q false 0%nat, None))))
    as (_ & Hsum & _).
  - reflexivity.
  - vm_compute. reflexivity.
  - repeat constructor.
  - reflexivity.
  - exact Hsum.
Defined.

(** ** The Bellman target *)

Section LossFacts.
Context {Obs : Type}.
Variable hp : Hyper.

Lemma masked_target_at (vs : list Q) :
  forall (ms : list bool) (rs : list Q) (i : nat) (r : Q),
    nth_error ms i = Some true ->
    nth_error rs i = Some r ->
    (i < length vs)%nat ->
    nth_error
      (map (fun '(v, r) => (v * GAMMA hp + r)%Q)
           (combine (masked_zero vs ms) rs)) i =
    Some (0 * GAMMA hp + r)%Q.
Proof.
  induction vs as [| v vs IH]; intros ms rs i r Hm Hr Hi.
  - cbn in Hi. lia.
  - destruct ms as [| m ms]; [destruct i; discriminate |].
    destruct rs as [| r0 rs]; [destruct i; discriminate |].
    destruct i as [| i].
    + cbn in Hm, Hr. inversion Hm; inversion Hr; subst. reflexivity.
    + cbn in Hm, Hr, Hi. cbn [masked_zero combine map nth_error].
      apply IH; [assumption | assumption | lia].
Qed.

(** The loss is the mean squared error against these targets. *)
Lemma calc_loss_targets (batch : Batch Obs) (net tgt_net : Obs -> torch.qvals)
    (loss_t : torch.scalar) :
  calc_loss hp batch net tgt_net = Ok loss_t ->
  exists state_action_values,
    loss_t = MSELoss state_action_values
               (expected_state_action_values hp batch tgt_net).
Proof.
  destruct batch as [[[[states actions] rewards] dones] next_states].
  unfold calc_loss.
  destruct (mapM _ (combine states actions)) as [sav | e]; cbn [bind];
    intros Heq; inversion Heq.
  now exists sav.
Qed.
End LossFacts.

(** C1. In [calc_loss], for a batch of five arrays of the same length and
    an index [i] whose [dones] entry is set (not zero), the Bellman target
    at [i] is [0 * GAMMA + rewards[i]], which is the number [rewards[i]]:
    whatever [next_states] holds and whatever the target network computes.
    Equality of values is equality of rationals. *)
Theorem C1_terminal_target_is_reward {Obs : Type} (hp : Hyper)
    (states : list Obs) (actions : list nat) (rewards : list Q)
    (dones : list Z) (next_states : list Obs)
    (tgt_net : Obs -> torch.qvals) (i : nat) (d : Z) (r : Q) :
  same_length (states, actions, rewards, dones, next_states) ->
  nth_error dones i = Some d ->
  d <> 0 ->
  nth_error rewards i = Some r ->
  exists y,
    nth_error
      (expected_state_action_values hp
         (states, actions, rewards, dones, next_states) tgt_net) i = Some y /\
    (y == r)%Q.
Proof.
  intros (Ha & Hr & Hd & Hn) Hdi Hnz Hri.
  exists (0 * GAMMA hp + r)%Q. split; [| ring].
  unfold expected_state_action_values.
  apply masked_target_at.
  - rewrite nth_error_map, Hdi. cbn.
    destruct (Z.eqb_spec d 0); [contradiction | reflexivity].
  - exact Hri.
  - rewrite length_map, Hn, <- Hd.
    apply nth_error_Some. rewrite Hdi. discriminate.
Qed.

(** C1 on a batch of two transitions, the second of which is terminal. *)
Lemma C1_terminal_target_is_reward_witness :
  exists y,
    nth_error
      (expected_state_action_values source_constants
         ([0; 4]%nat, [0; 0]%nat, [1; -1]%Q, [0; 1], [1; 5]%nat)
         (fun s => torch.row (inject_Z (Z.of_nat s)) [7%Q])) 1 = Some y /\
    (y == -1)%Q.
Proof.
  apply (@C1_terminal_target_is_reward nat source_constants
           [0; 4]%nat [0; 0]%nat [1; -1]%Q [0; 1] [1; 5]%nat
           (fun s => torch.row (inject_Z (Z.of_nat s)) [7%Q]) 1%nat 1 (-1)%Q).
  - cbn. repeat split.
  - reflexivity.
  - discriminate.
  - reflexivity.
Defined.

(** ** The exploration schedule *)

Lemma Qlt_bool_iff (x y : Q) : Qlt_bool x y = true <-> (x < y)%Q.
Proof.
  unfold Qlt_bool. rewrite negb_true_iff.
  destruct (Qle_bool y x) eqn:Hle.
  - apply Qle_bool_iff in Hle. split; [discriminate | intros Hlt; lra].
  - split; [intros _ | reflexivity].
    apply Qnot_le_lt. intros Hyx. apply Qle_bool_iff in Hyx. congruence.
Qed.

Lemma py_max_spec (a b : Q) :
  ((a < b)%Q /\ py_max a b = b) \/ ((b <= a)%Q /\ py_max a b = a).
Proof.
  unfold py_max. destruct (Qlt_bool a b) eqn:Hlt.
  - left. split; [now apply Qlt_bool_iff | reflexivity].
  - right. split; [| reflexivity].
    apply Qnot_lt_le. intros Hab. apply Qlt_bool_iff in Hab. congruence.
Qed.

Lemma py_max_Qmax (a b : Q) : (py_max a b == Qmax a b)%Q.
Proof.
  destruct (py_max_spec a b) as [[Hlt ->] | [Hle ->]].
  - symmetry. apply Q.max_r. lra.
  - symmetry. apply Q.max_l. exact Hle.
Qed.

Lemma py_max_lower (a b : Q) : (a <= py_max a b)%Q.
Proof. destruct (py_max_spec a b) as [[Hlt ->] | [Hle ->]]; lra. Qed.

Lemma py_max_monotone (a b b' : Q) :
  (b' <= b)%Q -> (py_max a b' <= py_max a b)%Q.
Proof.
  intros Hb.
  destruct (py_max_spec a b) as [[Hlt ->] | [Hle ->]];
    destruct (py_max_spec a b') as [[Hlt' ->] | [Hle' ->]]; lra.
Qed.

Lemma ratio_monotone (step1 step2 horizon : Z) :
  0 < horizon -> step1 <= step2 ->
  (inject_Z step1 / inject_Z horizon <= inject_Z step2 / inject_Z horizon)%Q.
Proof.
  intros Hpos Hle. unfold Qdiv.
  apply Qmult_le_compat_r.
  - rewrite <- Zle_Qle. exact Hle.
  - apply Qinv_le_0_compat. change 0%Q with (inject_Z 0).
    rewrite <- Zle_Qle. lia.
Qed.

(** The schedule for any constants with a positive decay horizon. *)
Lemma epsilon_schedule_positive_horizon (hp : Hyper) (step : Z) :
  0 < EPSILON_DECAY_LAST_FRAME hp ->
  Main.epsilon_schedule hp step =
  Ok (py_max (EPSILON_FINAL hp)
        (EPSILON_START hp -
         inject_Z step / inject_Z (EPSILON_DECAY_LAST_FRAME hp))%Q).
Proof.
  intros Hpos. unfold Main.epsilon_schedule.
  destruct (Z.eqb_spec (EPSILON_DECAY_LAST_FRAME hp) 0); [lia | reflexivity].
Qed.

(** C7. With the constants of the source, the exploration probability at
    every step is [max(EPSILON_FINAL, EPSILON_START - step /
    EPSILON_DECAY_LAST_FRAME)] and is at least [EPSILON_FINAL]; and for
    [0 <= step1 < step2] the value at [step2] is at most the value at
    [step1]. *)
Theorem C7_epsilon_schedule :
  (forall step : Z,
     exists e,
       Main.epsilon_schedule source_constants step = Ok e /\
       (e == Qmax (EPSILON_FINAL source_constants)
               (EPSILON_START source_constants -
                inject_Z step /
                inject_Z (EPSILON_DECAY_LAST_FRAME source_constants)))%Q /\
       (EPSILON_FINAL source_constants <= e)%Q) /\
  (forall (step1 step2 : Z) (e1 e2 : Q),
     0 <= step1 < step2 ->
     Main.epsilon_schedule source_constants step1 = Ok e1 ->
     Main.epsilon_schedule source_constants step2 = Ok e2 ->
     (e2 <= e1)%Q).
Proof.
  assert (Hpos : 0 < EPSILON_DECAY_LAST_FRAME source_constants)
    by reflexivity.
  split.
  - intros step. eexists. split; [| split].
    + apply (epsilon_schedule_positive_horizon source_constants step Hpos).
    + apply py_max_Qmax.
    + apply py_max_lower.
  - intros step1 step2 e1 e2 Hsteps H1 H2.
    rewrite (epsilon_schedule_positive_horizon source_constants step1 Hpos)
      in H1.
    rewrite (epsilon_schedule_positive_horizon source_constants step2 Hpos)
      in H2.
    inversion H1; inversion H2; subst.
    apply py_max_monotone.
    pose proof (@ratio_monotone step1 step2
                  (EPSILON_DECAY_LAST_FRAME source_constants) Hpos) as Hr.
    assert (Hle : step1 <= step2) by lia. specialize (Hr Hle).
    set (q1 := (inject_Z step1 / _)%Q) in *.
    set (q2 := (inject_Z step2 / _)%Q) in *.
    lra.
Qed.

(** C7 at the frames 15000 and 75000: the values are 9/10 and 1/2. *)
Lemma C7_epsilon_schedule_witness :
  (py_max (1 # 100) (1 - inject_Z 75000 / inject_Z 150000) <=
   py_max (1 # 100) (1 - inject_Z 15000 / inject_Z 150000))%Q.
Proof.
  apply (proj2 C7_epsilon_schedule 15000 75000).
  - split; [discriminate | reflexivity].
  - reflexivity.
  - reflexivity.
Defined.

(** ** The main loop *)

Section MainFacts.
Context {Obs E Params Opt : Type}.
Context `{gym.Env Obs E} `{torch.Learner Params Opt Obs}.
Variable hp : Hyper.
Implicit Types (s : Main.t Obs E Params Opt) (dr : Draws).

(** The end of an episode touches neither the networks, nor the agent, nor
    the frame counter. *)
Lemma episode_done_keeps dr (reward : Q) s :
  let s' := fst (Main.episode_done hp dr reward s) in
  Main.net s' = Main.net s /\ Main.tgt_net s' = Main.tgt_net s /\
  Main.agent s' = Main.agent s /\ Main.frame_idx s' = Main.frame_idx s.
Proof.
  unfold Main.episode_done.
  destruct (Qeq_bool (now dr - Main.ts s) 0); [repeat split |].
  destruct (Qlt_bool _ _); repeat split.
Qed.

(** The training part: the frame counter and the agent stay, and the target
    network is overwritten with the online parameters exactly when the
    warm-up gate is passed and the frame counter is a multiple of the
    interval. *)
Lemma train_tgt_net dr s :
  SYNC_TARGET_FRAMES hp <> 0 ->
  let s' := fst (Main.train hp dr s) in
  Main.frame_idx s' = Main.frame_idx s /\
  Main.agent s' = Main.agent s /\
  Main.tgt_net s' =
    if (Z.of_nat (ExperienceBuffer.__len__ (Main.buffer s))
        <? REPLAY_START_SIZE hp)
    then Main.tgt_net s
    else if Main.frame_idx s mod SYNC_TARGET_FRAMES hp =? 0
         then Main.net s else Main.tgt_net s.
Proof.
  intros Hsync. unfold Main.train.
  destruct (Z.of_nat (ExperienceBuffer.__len__ (Main.buffer s))
            <? REPLAY_START_SIZE hp); [repeat split |].
  destruct (Z.eqb_spec (SYNC_TARGET_FRAMES hp) 0) as [Heq | _];
    [contradiction |].
  destruct (fst (ExperienceBuffer.sample _ _ _)) as [batch | e];
    [| repeat split].
  destruct (calc_loss _ _ _ _) as [loss_t | e]; [| repeat split].
  destruct (torch.backward_step _ _ _) as [net' optimizer'].
  repeat split.
Qed.

End MainFacts.

(** C8 as stated fails during warm-up. Started with the constants of the
    source and networks that differ, the program reaches frame 1000 with
    1000 transitions in the buffer, fewer than [REPLAY_START_SIZE]: the
    iteration goes on to the next one without copying, and the target
    parameters are not the online ones. *)
Lemma C8_counterexample :
  FiveSteps.started_with source_constants = Ok FiveSteps.start /\
  snd (FiveSteps.after source_constants 999) = Continue /\
  snd (FiveSteps.iteration_1000 source_constants) = Continue /\
  Main.frame_idx (fst (FiveSteps.iteration_1000 source_constants)) = 1000 /\
  1000 mod SYNC_TARGET_FRAMES source_constants = 0 /\
  ExperienceBuffer.__len__
    (Main.buffer (fst (FiveSteps.iteration_1000 source_constants))) =
    1000%nat /\
  Main.net (fst (FiveSteps.after source_constants 999)) = 1%nat /\
  Main.tgt_net (fst (FiveSteps.iteration_1000 source_constants)) = 0%nat /\
  Main.tgt_net (fst (FiveSteps.iteration_1000 source_constants))
  <> Main.net (fst (FiveSteps.after source_constants 999)).
Proof.
  split; [reflexivity |].
  split; [vm_compute; reflexivity |].
  split; [vm_compute; reflexivity |].
  split; [vm_compute; reflexivity |].
  split; [reflexivity |].
  split; [vm_compute; reflexivity |].
  split; [vm_compute; reflexivity |].
  split; [vm_compute; reflexivity |].
  vm_compute. discriminate.
Qed.

(** C8, amended. With a synchronisation interval of 1000, one iteration of
    the loop advances the frame counter by one and either leaves the target
    parameters as they were, or overwrites them with the online parameters
    as they are at that moment; it overwrites them only if the frame counter
    is a multiple of 1000 and the buffer has reached [REPLAY_START_SIZE];
    and every iteration that goes on to the next one with the frame counter
    a multiple of 1000 and the buffer at [REPLAY_START_SIZE] or more does
    overwrite them. In every other iteration the target parameters stay
    fixed. *)
Theorem C8_sync_cadence {Obs E Params Opt : Type}
    `{gym.Env Obs E} `{torch.Learner Params Opt Obs}
    (hp : Hyper) (dr : Draws) (s : Main.t Obs E Params Opt) :
  SYNC_TARGET_FRAMES hp = 1000 ->
  let s' := fst (Main.loop_body hp dr s) in
  let o := snd (Main.loop_body hp dr s) in
  let gate_passed :=
    REPLAY_START_SIZE hp <= Z.of_nat (ExperienceBuffer.__len__ (Main.buffer s'))
  in
  Main.frame_idx s' = Main.frame_idx s + 1 /\
  (Main.tgt_net s' = Main.tgt_net s \/
   (Main.tgt_net s' = Main.net s /\
    Main.frame_idx s' mod 1000 = 0 /\ gate_passed)) /\
  (o = Continue -> Main.frame_idx s' mod 1000 = 0 -> gate_passed ->
   Main.tgt_net s' = Main.net s) /\
  (Main.frame_idx s' mod 1000 <> 0 \/ ~ gate_passed ->
   Main.tgt_net s' = Main.tgt_net s).
Proof.
  intros Hsync.
  assert (Hnz : SYNC_TARGET_FRAMES hp <> 0) by lia.
  (* what the training part does to a state [s1] whose networks and frame
     counter are those of [s] after the increment *)
  assert (Htrain : forall s1 : Main.t Obs E Params Opt,
    Main.net s1 = Main.net s -> Main.tgt_net s1 = Main.tgt_net s ->
    Main.frame_idx s1 = Main.frame_idx s + 1 ->
    let s' := fst (Main.train hp dr s1) in
    let o := snd (Main.train hp dr s1) in
    let gate_passed :=
      REPLAY_START_SIZE hp
      <= Z.of_nat (ExperienceBuffer.__len__ (Main.buffer s')) in
    Main.frame_idx s' = Main.frame_idx s + 1 /\
    (Main.tgt_net s' = Main.tgt_net s \/
     (Main.tgt_net s' = Main.net s /\
      Main.frame_idx s' mod 1000 = 0 /\ gate_passed)) /\
    (o = Continue -> Main.frame_idx s' mod 1000 = 0 -> gate_passed ->
     Main.tgt_net s' = Main.net s) /\
    (Main.frame_idx s' mod 1000 <> 0 \/ ~ gate_passed ->
     Main.tgt_net s' = Main.tgt_net s)).
  { intros s1 Hnet Htgt Hfr.
    destruct (train_tgt_net hp dr s1 Hnz) as (Hf & Hag & Ht).
    cbv zeta in Hf, Hag, Ht |- *.
    set (s' := fst (Main.train hp dr s1)) in *.
    assert (Hb : Main.buffer s' = Main.buffer s1)
      by (unfold Main.buffer; now rewrite Hag).
    rewrite Hb, Hf, Ht, Hfr, Hsync, Hnet, Htgt.
    destruct (Z.ltb_spec
                (Z.of_nat (ExperienceBuffer.__len__ (Main.buffer s1)))
                (REPLAY_START_SIZE hp)) as [Hsmall | Hfull].
    - split; [reflexivity |]. split; [now left |].
      split; [intros; lia | reflexivity].
    - destruct (Z.eqb_spec ((Main.frame_idx s + 1) mod 1000) 0)
        as [Hmul | Hnot].
      + split; [reflexivity |]. split; [right; repeat split; assumption |].
        split; [reflexivity |]. intros [Hc | Hc]; contradiction.
      + split; [reflexivity |]. split; [now left |].
        split; [intros; contradiction | reflexivity]. }
  (* the iterations that stop before the training part *)
  assert (Hstop : forall s1 : Main.t Obs E Params Opt, forall o1 : outcome,
    Main.tgt_net s1 = Main.tgt_net s ->
    Main.frame_idx s1 = Main.frame_idx s + 1 ->
    o1 <> Continue ->
    let gate_passed :=
      REPLAY_START_SIZE hp
      <= Z.of_nat (ExperienceBuffer.__len__ (Main.buffer s1)) in
    Main.frame_idx s1 = Main.frame_idx s + 1 /\
    (Main.tgt_net s1 = Main.tgt_net s \/
     (Main.tgt_net s1 = Main.net s /\
      Main.frame_idx s1 mod 1000 = 0 /\ gate_passed)) /\
    (o1 = Continue -> Main.frame_idx s1 mod 1000 = 0 -> gate_passed ->
     Main.tgt_net s1 = Main.net s) /\
    (Main.frame_idx s1 mod 1000 <> 0 \/ ~ gate_passed ->
     Main.tgt_net s1 = Main.tgt_net s)).
  { intros s1 o1 Htgt Hfr Ho. cbv zeta.
    split; [exact Hfr |]. split; [now left |].
    split; [intros; contradiction | intros; exact Htgt]. }
  cbv zeta. unfold Main.loop_body.
  destruct (Main.epsilon_schedule hp (Main.frame_idx s + 1))
    as [epsilon' | e].
  2: { apply (Hstop _ (Raised e)); [reflexivity | reflexivity | discriminate]. }
  destruct (Agent.play_step _ epsilon' (u dr) (Main.agent s))
    as [[r |] agent'].
  2: { apply Htrain; reflexivity. }
  match goal with
  | |- context [Main.episode_done hp dr r ?s1] =>
      pose proof (episode_done_keeps hp dr r s1) as Hk;
      destruct (Main.episode_done hp dr r s1) as [s2 o2]
  end.
  cbv zeta in Hk. cbn [fst Main.net Main.tgt_net Main.frame_idx] in Hk.
  destruct Hk as (Hnet & Htgt & _ & Hfr).
  destruct o2.
  - apply Htrain; assumption.
  - apply (Hstop s2 Break); [assumption | assumption | discriminate].
  - apply (Hstop s2 (Raised exn)); [assumption | assumption | discriminate].
Qed.

(** C8 (amended) on iteration 1000 of a run whose warm-up ended at frame 2:
    the target parameters, untouched until then, become the online ones. *)
Lemma C8_sync_cadence_witness :
  Main.tgt_net (fst (FiveSteps.after FiveSteps.eager_constants 999)) = 0%nat /\
  Main.net (fst (FiveSteps.after FiveSteps.eager_constants 999)) = 999%nat /\
  Main.tgt_net (fst (FiveSteps.iteration_1000 FiveSteps.eager_constants)) =
  Main.net (fst (FiveSteps.after FiveSteps.eager_constants 999)).
Proof.
  split; [vm_compute; reflexivity |].
  split; [vm_compute; reflexivity |].
  refine (proj1 (proj2 (proj2
            (@C8_sync_cadence nat nat nat unit FiveSteps.env FiveSteps.learner
               FiveSteps.eager_constants (FiveSteps.draws_at 1000)
               (fst (FiveSteps.after FiveSteps.eager_constants 999))
               eq_refl))) _ _ _).
  - vm_compute. reflexivity.
  - vm_compute. reflexivity.
  - vm_compute. discriminate.
Defined.

(** ** Startup *)

(** C9 as stated fails: with a replay size of 0, a batch size of 0 and a
    decay horizon of 0, startup raises nothing and the loop is entered; the
    first iteration then stops with [ZeroDivisionError]. *)
Lemma C9_counterexample :
  REPLAY_SIZE FiveSteps.zero_constants <= 0 /\
  BATCH_SIZE FiveSteps.zero_constants <= 0 /\
  EPSILON_DECAY_LAST_FRAME FiveSteps.zero_constants <= 0 /\
  FiveSteps.started_with FiveSteps.zero_constants = Ok FiveSteps.start_zero /\
  FiveSteps.started_with FiveSteps.zero_constants
  <> Raise "ConfigurationError" /\
  snd FiveSteps.first_zero_iteration = Raised "ZeroDivisionError".
Proof.
  split; [discriminate |]. split; [discriminate |]. split; [discriminate |].
  split; [reflexivity |]. split; [| reflexivity].
  cbn. discriminate.
Qed.

(** What startup returns, by cases on the replay size and the learning
    rate. *)
Lemma startup_cases {Obs E Params Opt : Type}
    `{gym.Env Obs E} `{torch.Learner Params Opt Obs}
    (hp : Hyper) (env0 : E) (net0 tgt_net0 : Params) (ts0 : Q) :
  (REPLAY_SIZE hp < - 2 ^ 63 \/ 2 ^ 63 <= REPLAY_SIZE hp ->
   Main.startup hp env0 net0 tgt_net0 ts0 = Raise "OverflowError") /\
  (- 2 ^ 63 <= REPLAY_SIZE hp < 0 ->
   Main.startup hp env0 net0 tgt_net0 ts0 = Raise "ValueError") /\
  (0 <= REPLAY_SIZE hp < 2 ^ 63 -> (LEARNING_RATE hp < 0)%Q ->
   Main.startup hp env0 net0 tgt_net0 ts0 = Raise "ValueError") /\
  (0 <= REPLAY_SIZE hp < 2 ^ 63 -> (0 <= LEARNING_RATE hp)%Q ->
   Main.startup hp env0 net0 tgt_net0 ts0 =
   Ok (Main.mk net0 tgt_net0
         (Agent.__init__ env0
            (ExperienceBuffer.mk (deque.mk (Z.to_nat (REPLAY_SIZE hp)) [])))
         (EPSILON_START hp) (torch.Adam net0 (LEARNING_RATE hp))
         [] 0 0 ts0 None)).
Proof.
  unfold Main.startup, as_ssize_t, ExperienceBuffer.__init__, deque.make,
    torch.optim_Adam.
  destruct (Z.ltb_spec (REPLAY_SIZE hp) (- 2 ^ 63)) as [Hlow | Hlow];
    destruct (Z.leb_spec (2 ^ 63) (REPLAY_SIZE hp)) as [Hhigh | Hhigh];
    cbn [orb bind];
    try (repeat split; intros; first [reflexivity | lia]).
  destruct (Z.ltb_spec (REPLAY_SIZE hp) 0) as [Hneg | Hok]; cbn [bind];
    [repeat split; intros; first [reflexivity | lia] |].
  destruct (Qlt_bool (LEARNING_RATE hp) 0) eqn:Hlr; cbn [bind].
  - apply Qlt_bool_iff in Hlr.
    repeat split; intros; first [reflexivity | lia | lra].
  - assert (Hnn : (0 <= LEARNING_RATE hp)%Q).
    { apply Qnot_lt_le. intros Hc. apply Qlt_bool_iff in Hc. congruence. }
    repeat split; intros; first [reflexivity | lia | lra].
Qed.

(** C9, amended. Startup validates no hyperparameter itself and never
    raises a [ConfigurationError]. A capacity of 0, a batch size or a decay
    horizon that is not positive are not detected: whenever
    [0 <= REPLAY_SIZE < 2^63] and [LEARNING_RATE >= 0], startup succeeds and
    the loop is entered with an empty buffer of that capacity and a frame
    counter of 0. The only failures at startup are those of the
    constructors it calls: [deque] raises [ValueError] for a negative
    [REPLAY_SIZE] and [OverflowError] for one that does not fit a C
    [ssize_t], and [optim.Adam] raises [ValueError] for a negative
    [LEARNING_RATE]. *)
Theorem C9_startup_checks_nothing {Obs E Params Opt : Type}
    `{gym.Env Obs E} `{torch.Learner Params Opt Obs}
    (hp : Hyper) (env0 : E) (net0 tgt_net0 : Params) (ts0 : Q) :
  Main.startup hp env0 net0 tgt_net0 ts0 <> Raise "ConfigurationError" /\
  (0 <= REPLAY_SIZE hp < 2 ^ 63 -> (0 <= LEARNING_RATE hp)%Q ->
   exists s,
     Main.startup hp env0 net0 tgt_net0 ts0 = Ok s /\
     Main.frame_idx s = 0 /\
     ExperienceBuffer.contents (Main.buffer s) = [] /\
     Z.of_nat (capacity_of (Main.buffer s)) = REPLAY_SIZE hp) /\
  (REPLAY_SIZE hp < - 2 ^ 63 \/ 2 ^ 63 <= REPLAY_SIZE hp ->
   Main.startup hp env0 net0 tgt_net0 ts0 = Raise "OverflowError") /\
  (- 2 ^ 63 <= REPLAY_SIZE hp < 0 ->
   Main.startup hp env0 net0 tgt_net0 ts0 = Raise "ValueError") /\
  (0 <= REPLAY_SIZE hp < 2 ^ 63 -> (LEARNING_RATE hp < 0)%Q ->
   Main.startup hp env0 net0 tgt_net0 ts0 = Raise "ValueError").
Proof.
  destruct (startup_cases hp env0 net0 tgt_net0 ts0)
    as (Hover & Hneg & Hrate & Hok).
  split; [| split; [| split; [| split]]]; try assumption.
  - destruct (Z_lt_le_dec (REPLAY_SIZE hp) (- 2 ^ 63)) as [Hl | Hl];
      [rewrite Hover by lia; discriminate |].
    destruct (Z_lt_le_dec (REPLAY_SIZE hp) 0) as [Hn | Hn];
      [rewrite Hneg by lia; discriminate |].
    destruct (Z_lt_le_dec (REPLAY_SIZE hp) (2 ^ 63)) as [Hh | Hh];
      [| rewrite Hover by lia; discriminate].
    destruct (Qlt_le_dec (LEARNING_RATE hp) 0) as [Hr | Hr];
      [rewrite Hrate by (lia || assumption); discriminate |].
    rewrite Hok by (lia || assumption). discriminate.
  - intros Hsize Hlr. eexists. split; [apply Hok; assumption |].
    unfold Main.buffer, Agent.__init__. cbn [Main.agent Main.frame_idx].
    destruct (gym.reset env0) as [state0 env'].
    cbn. split; [reflexivity |]. split; [reflexivity | lia].
Qed.

(** C9 (amended) on the constants that are all zero. *)
Lemma C9_startup_checks_nothing_witness :
  exists s,
    FiveSteps.started_with FiveSteps.zero_constants = Ok s /\
    Main.frame_idx s = 0 /\
    ExperienceBuffer.contents (Main.buffer s) = [] /\
    Z.of_nat (capacity_of (Main.buffer s)) = 0.
Proof.
  refine (proj1 (proj2
            (@C9_startup_checks_nothing nat nat nat unit FiveSteps.env
               FiveSteps.learner FiveSteps.zero_constants 0%nat 1%nat 0%nat
               0%Q)) _ _).
  - split; [discriminate | reflexivity].
  - discriminate.
Defined.

(* ================================================================== *)
(** * Further properties of the code *)

(** ** More on the replay buffer *)

Section BufferMore.
Context {Obs : Type}.
Implicit Types (b : ExperienceBuffer.t Obs) (x : Experience.t Obs).

(** The rows behind a successful [sample]. *)
Lemma sample_rows b (n : Z) (perm : list nat) :
  0 < n <= Z.of_nat (ExperienceBuffer.__len__ b) ->
  Permutation perm (seq 0 (ExperienceBuffer.__len__ b)) ->
  exists rows,
    length rows = Z.to_nat n /\
    Forall2 (fun idx e => nth_error (ExperienceBuffer.contents b) idx = Some e)
            (firstn (Z.to_nat n) perm) rows /\
    fst (ExperienceBuffer.sample n perm b) =
    Ok (map (@Experience.state Obs) rows,
        map (@Experience.action Obs) rows,
        map (@Experience.reward Obs) rows,
        map Z.b2z (map (@Experience.done Obs) rows),
        map (@Experience.new_state Obs) rows).
Proof.
  intros Hn Hperm.
  destruct (@choice_indices perm (ExperienceBuffer.__len__ b) (Z.to_nat n) Hperm)
    as (Hlen & _ & Hlt); [lia |].
  destruct (mapM_getitem (ExperienceBuffer.buffer b) Hlt)
    as (rows & Hrows & Hall).
  assert (Hrl : length rows = Z.to_nat n)
    by (rewrite <- (Forall2_length Hall); exact Hlen).
  exists rows. split; [exact Hrl |]. split; [exact Hall |].
  unfold ExperienceBuffer.sample, np_random_choice.
  change (deque.len (ExperienceBuffer.buffer b))
    with (ExperienceBuffer.__len__ b).
  destruct (Z.ltb_spec n 0) as [Hneg | _]; [lia |].
  destruct (Z.ltb_spec (Z.of_nat (ExperienceBuffer.__len__ b)) n)
    as [Hbig | _]; [lia |].
  cbn [orb bind fst]. rewrite Hrows. cbn [bind].
  destruct rows as [| e rows]; [cbn in Hrl; lia |].
  reflexivity.
Qed.
End BufferMore.

(** X1. A batch size that is not positive makes [sample] raise
    [ValueError], whatever the buffer holds: a negative one is rejected by
    [np.random.choice], and with 0 there is no row to unpack into the five
    arrays. The buffer is left as it was. *)
Theorem X1_sample_nonpositive_raises {Obs : Type}
    (b : ExperienceBuffer.t Obs) (batch_size : Z) (perm : list nat) :
  batch_size <= 0 ->
  ExperienceBuffer.sample batch_size perm b = (Raise "ValueError", b).
Proof.
  intros Hn. unfold ExperienceBuffer.sample, np_random_choice.
  destruct (Z.ltb_spec batch_size 0) as [Hneg | Hzero]; [reflexivity |].
  assert (batch_size = 0) by lia. subst batch_size.
  destruct (Z.ltb_spec (Z.of_nat (deque.len (ExperienceBuffer.buffer b))) 0)
    as [Hlt | _]; [lia |].
  reflexivity.
Qed.

(** X1 on a buffer of three transitions and a batch size of 0. *)
Lemma X1_sample_nonpositive_raises_witness :
  ExperienceBuffer.sample 0 [2; 0; 1]%nat
    (Agent.exp_buffer (snd (FiveSteps.play 3))) =
  (Raise "ValueError", Agent.exp_buffer (snd (FiveSteps.play 3))).
Proof.
  apply (@X1_sample_nonpositive_raises nat
           (Agent.exp_buffer (snd (FiveSteps.play 3))) 0 [2; 0; 1]%nat).
  discriminate.
Defined.

(** X2. A batch that [sample] returns is made of five arrays of
    [batch_size] entries each, and its [dones] array holds only 0 and 1. *)
Theorem X2_sample_batch_shape {Obs : Type}
    (b : ExperienceBuffer.t Obs) (n : Z) (perm : list nat) :
  0 < n <= Z.of_nat (ExperienceBuffer.__len__ b) ->
  Permutation perm (seq 0 (ExperienceBuffer.__len__ b)) ->
  exists states actions rewards dones next_states,
    fst (ExperienceBuffer.sample n perm b) =
      Ok (states, actions, rewards, dones, next_states) /\
    same_length (states, actions, rewards, dones, next_states) /\
    Z.of_nat (length states) = n /\
    Forall (fun d => d = 0 \/ d = 1) dones.
Proof.
  intros Hn Hperm.
  destruct (sample_rows b Hn Hperm) as (rows & Hlen & _ & Hs).
  do 5 eexists. split; [exact Hs |].
  unfold same_length. rewrite !length_map.
  split; [repeat split |]. split; [lia |].
  apply Forall_forall. intros d Hd.
  apply in_map_iff in Hd. destruct Hd as (x & <- & _).
  destruct x; [right | left]; reflexivity.
Qed.

(** X2 on a buffer of three transitions and a batch of 2. *)
Lemma X2_sample_batch_shape_witness :
  exists states actions rewards dones next_states,
    fst (ExperienceBuffer.sample 2 [2; 0; 1]%nat
           (Agent.exp_buffer (snd (FiveSteps.play 3)))) =
      Ok (states, actions, rewards, dones, next_states) /\
    same_length (states, actions, rewards, dones, next_states) /\
    Z.of_nat (length states) = 2 /\
    Forall (fun d => d = 0 \/ d = 1) dones.
Proof.
  apply (@X2_sample_batch_shape nat
           (Agent.exp_buffer (snd (FiveSteps.play 3))) 2 [2; 0; 1]%nat).
  - vm_compute. split; [reflexivity | discriminate].
  - vm_compute.
    apply (perm_trans (l' := [0; 2; 1]%nat)).
    + apply perm_swap.
    + apply perm_skip, perm_swap.
Defined.

(** ** Sampling followed by the Bellman target *)

Lemma Forall2_nth_error_l (A B : Type) (R : A -> B -> Prop)
    (l : list A) (l' : list B) :
  Forall2 R l l' ->
  forall (j : nat) (a : A),
    nth_error l j = Some a -> exists b, nth_error l' j = Some b /\ R a b.
Proof.
  induction 1 as [| a0 b0 l l' Hab _ IH]; intros j a Hj.
  - destruct j; discriminate.
  - destruct j as [| j].
    + inversion Hj; subst. exists b0. split; [reflexivity | assumption].
    + exact (IH j a Hj).
Qed.

(** X3. When [sample] picks, as entry [j] of the batch, a stored transition
    whose [done] flag is set and whose reward is a number that a [float32]
    holds (the cast of the rewards column at line 69 then leaves it as it
    is), the Bellman target that [calc_loss] computes at [j] is the reward
    stored with that transition. *)
Theorem X3_sampled_terminal_target {Obs : Type} (hp : Hyper)
    (b : ExperienceBuffer.t Obs) (n : Z) (perm : list nat)
    (tgt_net : Obs -> torch.qvals) (j idx : nat) (e : Experience.t Obs) :
  0 < n <= Z.of_nat (ExperienceBuffer.__len__ b) ->
  Permutation perm (seq 0 (ExperienceBuffer.__len__ b)) ->
  (j < Z.to_nat n)%nat ->
  nth_error perm j = Some idx ->
  nth_error (ExperienceBuffer.contents b) idx = Some e ->
  Experience.done e = true ->
  float32_exact (Experience.reward e) ->
  exists batch y,
    fst (ExperienceBuffer.sample n perm b) = Ok batch /\
    nth_error (expected_state_action_values hp batch tgt_net) j = Some y /\
    (y == Experience.reward e)%Q.
Proof.
  intros Hn Hperm Hj Hidx He Hdone _.
  destruct (sample_rows b Hn Hperm) as (rows & Hlen & Hall & Hs).
  assert (Hfj : nth_error (firstn (Z.to_nat n) perm) j = Some idx).
  { rewrite nth_error_firstn.
    destruct (Nat.ltb_spec j (Z.to_nat n)); [exact Hidx | lia]. }
  destruct (Forall2_nth_error_l Hall j Hfj) as (e' & Hrow & He').
  assert (e' = e) by congruence. subst e'.
  eexists. exists (0 * GAMMA hp + Experience.reward e)%Q.
  split; [exact Hs |]. split; [| ring].
  unfold expected_state_action_values.
  apply masked_target_at.
  - rewrite !nth_error_map, Hrow. cbn. rewrite Hdone. reflexivity.
  - rewrite nth_error_map, Hrow. reflexivity.
  - rewrite !length_map. lia.
Qed.

(** X3 on the buffer after five calls in the five-step environment (capacity
    3): the newest transition, at position 2, is the terminal one; sampled
    as entry 0 of a batch of 2 its target is its reward, 1. *)
Lemma X3_sampled_terminal_target_witness :
  exists batch y,
    fst (ExperienceBuffer.sample 2 [2; 0; 1]%nat
           (Agent.exp_buffer (snd (FiveSteps.play 5)))) = Ok batch /\
    nth_error (expected_state_action_values source_constants batch
                 FiveSteps.net) 0 = Some y /\
    (y == 1)%Q.
Proof.
  apply (@X3_sampled_terminal_target nat source_constants
           (Agent.exp_buffer (snd (FiveSteps.play 5))) 2 [2; 0; 1]%nat
           FiveSteps.net 0%nat 2%nat
           (Experience.mk 4%nat 0%nat 1%Q true 5%nat)).
  - vm_compute. split; [reflexivity | discriminate].
  - vm_compute.
    apply (perm_trans (l' := [0; 2; 1]%nat)).
    + apply perm_swap.
    + apply perm_skip, perm_swap.
  - vm_compute. lia.
  - reflexivity.
  - vm_compute. reflexivity.
  - reflexivity.
  - exists 1, 0. split; [reflexivity |]. split; [lia | reflexivity].
Defined.

(** ** The maximum over the actions *)

Lemma Qlt_bool_false_iff (x y : Q) : Qlt_bool x y = false <-> (y <= x)%Q.
Proof.
  split.
  - intros Hf. apply Qnot_lt_le. intros Hlt.
    apply Qlt_bool_iff in Hlt. congruence.
  - intros Hle. destruct (Qlt_bool x y) eqn:Hb; [| reflexivity].
    apply Qlt_bool_iff in Hb. lra.
Qed.

(** The scan keeps the first largest entry seen so far: [pre] is the part of
    the row already scanned. *)
Lemma max_scan_spec (l : list Q) :
  forall (pre : list Q) (best : Q) (besti : nat),
    nth_error pre besti = Some best ->
    Forall (fun x => (x <= best)%Q) pre ->
    (forall k x, (k < besti)%nat -> nth_error pre k = Some x -> (x < best)%Q) ->
    nth_error (pre ++ l)
      (snd (torch.max_scan best besti (length pre) l)) =
      Some (fst (torch.max_scan best besti (length pre) l)) /\
    Forall (fun x => (x <= fst (torch.max_scan best besti (length pre) l))%Q)
           (pre ++ l) /\
    (forall k x,
       (k < snd (torch.max_scan best besti (length pre) l))%nat ->
       nth_error (pre ++ l) k = Some x ->
       (x < fst (torch.max_scan best besti (length pre) l))%Q).
Proof.
  induction l as [| x l IH]; intros pre best besti Hbest Hall Hfirst.
  - cbn [torch.max_scan fst snd]. rewrite app_nil_r. auto.
  - assert (Hlt : (besti < length pre)%nat)
      by (apply nth_error_Some; rewrite Hbest; discriminate).
    replace (pre ++ x :: l) with ((pre ++ [x]) ++ l)
      by (rewrite <- app_assoc; reflexivity).
    assert (Hlen : length (pre ++ [x]) = S (length pre))
      by (rewrite length_app; cbn; lia).
    cbn [torch.max_scan]. rewrite <- Hlen.
    destruct (Qlt_bool best x) eqn:Hcmp.
    + apply Qlt_bool_iff in Hcmp.
      apply IH.
      * rewrite nth_error_app2, Nat.sub_diag by lia. reflexivity.
      * apply Forall_app. split.
        -- eapply Forall_impl; [| exact Hall]. cbn. intros a Ha. lra.
        -- constructor; [lra | constructor].
      * intros k y Hk Hy. rewrite nth_error_app1 in Hy by lia.
        apply nth_error_In in Hy.
        rewrite Forall_forall in Hall. specialize (Hall y Hy). cbn in Hall.
        lra.
    + apply Qlt_bool_false_iff in Hcmp.
      apply IH.
      * rewrite nth_error_app1 by lia. exact Hbest.
      * apply Forall_app. split; [exact Hall |].
        constructor; [exact Hcmp | constructor].
      * intros k y Hk Hy. rewrite nth_error_app1 in Hy by lia.
        exact (Hfirst k y Hk Hy).
Qed.

Lemma torch_max_spec (r : torch.qvals) :
  nth_error (torch.to_list r) (snd (torch.max r)) = Some (fst (torch.max r)) /\
  Forall (fun x => (x <= fst (torch.max r))%Q) (torch.to_list r) /\
  (forall k x,
     (k < snd (torch.max r))%nat ->
     nth_error (torch.to_list r) k = Some x ->
     (x < fst (torch.max r))%Q).
Proof.
  unfold torch.max, torch.to_list.
  apply (@max_scan_spec (torch.rest r) [torch.first r] (torch.first r)
           0%nat).
  - reflexivity.
  - constructor; [lra | constructor].
  - intros k x Hk. lia.
Qed.

Lemma unmasked_target_at (g : Q) (vs : list Q) :
  forall (ms : list bool) (rs : list Q) (i : nat) (v r : Q),
    nth_error ms i = Some false ->
    nth_error vs i = Some v ->
    nth_error rs i = Some r ->
    nth_error
      (map (fun '(v, r) => (v * g + r)%Q) (combine (masked_zero vs ms) rs)) i =
    Some (v * g + r)%Q.
Proof.
  induction vs as [| v0 vs IH]; intros ms rs i v r Hm Hv Hr.
  - destruct i; discriminate.
  - destruct ms as [| m ms]; [destruct i; discriminate |].
    destruct rs as [| r0 rs]; [destruct i; discriminate |].
    destruct i as [| i].
    + cbn in Hm, Hv, Hr. inversion Hm; inversion Hv; inversion Hr; subst.
      reflexivity.
    + cbn in Hm, Hv, Hr. cbn [masked_zero combine map nth_error].
      apply IH; assumption.
Qed.

(** X4. For an entry of the batch whose [dones] value is 0, the Bellman
    target is [q * GAMMA + rewards[i]] where [q] is the largest value that
    the target network gives to an action in [next_states[i]]. *)
Theorem X4_nonterminal_target_bootstraps {Obs : Type} (hp : Hyper)
    (states : list Obs) (actions : list nat) (rewards : list Q)
    (dones : list Z) (next_states : list Obs)
    (tgt_net : Obs -> torch.qvals) (i : nat) (r : Q) (s' : Obs) :
  same_length (states, actions, rewards, dones, next_states) ->
  nth_error dones i = Some 0 ->
  nth_error rewards i = Some r ->
  nth_error next_states i = Some s' ->
  exists q,
    nth_error
      (expected_state_action_values hp
         (states, actions, rewards, dones, next_states) tgt_net) i =
      Some (q * GAMMA hp + r)%Q /\
    In q (torch.to_list (tgt_net s')) /\
    Forall (fun x => (x <= q)%Q) (torch.to_list (tgt_net s')).
Proof.
  intros _ Hd Hr Hs.
  destruct (torch_max_spec (tgt_net s')) as (Hat & Hmax & _).
  exists (fst (torch.max (tgt_net s'))). split; [| split].
  - unfold expected_state_action_values.
    apply unmasked_target_at.
    + rewrite nth_error_map, Hd. reflexivity.
    + rewrite nth_error_map, Hs. reflexivity.
    + exact Hr.
  - exact (nth_error_In _ _ Hat).
  - exact Hmax.
Qed.

(** X4 on a batch of two transitions, the first of which is not terminal:
    the target network gives the values 1 and 7 in its next state. *)
Lemma X4_nonterminal_target_bootstraps_witness :
  exists q,
    nth_error
      (expected_state_action_values source_constants
         ([0; 4]%nat, [0; 0]%nat, [1; -1]%Q, [0; 1], [1; 5]%nat)
         (fun s => torch.row (inject_Z (Z.of_nat s)) [7%Q])) 0 =
      Some (q * (99 # 100) + 1)%Q /\
    In q [inject_Z (Z.of_nat 1); 7%Q] /\
    Forall (fun x => (x <= q)%Q) [inject_Z (Z.of_nat 1); 7%Q].
Proof.
  apply (@X4_nonterminal_target_bootstraps nat source_constants
           [0; 4]%nat [0; 0]%nat [1; -1]%Q [0; 1] [1; 5]%nat
           (fun s => torch.row (inject_Z (Z.of_nat s)) [7%Q]) 0%nat 1%Q 1%nat).
  - cbn. repeat split.
  - reflexivity.
  - reflexivity.
  - reflexivity.
Defined.

(** X5. When the draw [u] is not below [epsilon] (in particular with the
    default [epsilon = 0]), [play_step] acts greedily: the action is the
    first index at which the network's value for the current state is the
    largest, and the environment's sampler is not used. *)
Theorem X5_greedy_action_is_first_argmax {Obs E : Type} `{gym.Env Obs E}
    (net : Obs -> torch.qvals) (epsilon u : Q) (self : Agent.t Obs E) :
  (epsilon <= u)%Q ->
  snd (Agent.select_action net epsilon u self) = Agent.env self /\
  exists q,
    nth_error (torch.to_list (net (Agent.state self)))
              (fst (Agent.select_action net epsilon u self)) = Some q /\
    Forall (fun x => (x <= q)%Q) (torch.to_list (net (Agent.state self))) /\
    (forall k x,
       (k < fst (Agent.select_action net epsilon u self))%nat ->
       nth_error (torch.to_list (net (Agent.state self))) k = Some x ->
       (x < q)%Q).
Proof.
  intros Hu. unfold Agent.select_action.
  rewrite (proj2 (Qlt_bool_false_iff u epsilon) Hu). cbn [fst snd].
  split; [reflexivity |].
  exists (fst (torch.max (net (Agent.state self)))).
  apply torch_max_spec.
Qed.

(** X5 on a network with the values 3, 7, 7 for every state: the greedy
    action is 1. *)
Lemma X5_greedy_action_is_first_argmax_witness :
  fst (@Agent.select_action nat nat FiveSteps.env
         (fun _ => torch.row 3 [7%Q; 7%Q]) 0 (1 # 2) FiveSteps.agent0) = 1%nat /\
  exists q,
    nth_error [3%Q; 7%Q; 7%Q]
      (fst (@Agent.select_action nat nat FiveSteps.env
              (fun _ => torch.row 3 [7%Q; 7%Q]) 0 (1 # 2) FiveSteps.agent0)) =
      Some q /\
    Forall (fun x => (x <= q)%Q) [3%Q; 7%Q; 7%Q].
Proof.
  split; [reflexivity |].
  destruct (@X5_greedy_action_is_first_argmax nat nat FiveSteps.env
              (fun _ => torch.row 3 [7%Q; 7%Q]) 0 (1 # 2) FiveSteps.agent0)
    as (_ & q & Hq & Hall & _).
  - discriminate.
  - exists q. split; [exact Hq | exact Hall].
Defined.

(** ** The loss *)


Lemma mapM_Raise (A B : Type) (f : A -> result B) (err : string)
    (l : list A) :
  (forall a e, In a l -> f a = Raise e -> e = err) ->
  (exists a, In a l /\ f a = Raise err) ->
  mapM f l = Raise err.
Proof.
  induction l as [| a0 l IH]; intros Honly (a & Hin & Ha).
  - destruct Hin.
  - cbn [mapM]. destruct (f a0) as [b0 | e0] eqn:H0.
    + cbn [bind]. rewrite IH; [reflexivity | |].
      * intros a' e' Hin'. apply Honly. now right.
      * destruct Hin as [-> | Hin]; [congruence |]. now exists a.
    + cbn [bind]. f_equal. apply (Honly a0 e0); [now left | exact H0].
Qed.




Lemma nth_error_combine (A B : Type) (l : list A) :
  forall (l' : list B) (i : nat) (a : A) (b : B),
    nth_error l i = Some a -> nth_error l' i = Some b ->
    nth_error (combine l l') i = Some (a, b).
Proof.
  induction l as [| a0 l IH]; intros l' i a b Ha Hb.
  - destruct i; discriminate.
  - destruct l' as [| b0 l']; [destruct i; discriminate |].
    destruct i as [| i]; cbn in *.
    + congruence.
    + now apply IH.
Qed.



(** X7. [calc_loss] raises [RuntimeError] as soon as one action of the batch
    is not an index into the row of values of the online network. *)
Theorem X7_calc_loss_action_out_of_range {Obs : Type} (hp : Hyper)
    (states : list Obs) (actions : list nat) (rewards : list Q)
    (dones : list Z) (next_states : list Obs)
    (net tgt_net : Obs -> torch.qvals) (i : nat) (s : Obs) (a : nat) :
  same_length (states, actions, rewards, dones, next_states) ->
  nth_error states i = Some s ->
  nth_error actions i = Some a ->
  (length (torch.to_list (net s)) <= a)%nat ->
  calc_loss hp (states, actions, rewards, dones, next_states) net tgt_net =
  Raise "RuntimeError".
Proof.
  intros _ Hs Ha Hout. unfold calc_loss.
  rewrite (@mapM_Raise _ _ (fun '(s, a) => torch.gather (net s) a)
             "RuntimeError"); [reflexivity | |].
  - intros [s0 a0] e _. unfold torch.gather.
    destruct (nth_error _ a0); [discriminate | congruence].
  - exists (s, a). split.
    + exact (nth_error_In _ _ (nth_error_combine _ _ _ Hs Ha)).
    + unfold torch.gather.
      destruct (nth_error (torch.to_list (net s)) a) as [q |] eqn:Hq;
        [| reflexivity].
      assert (a < length (torch.to_list (net s)))%nat
        by (apply nth_error_Some; rewrite Hq; discriminate).
      lia.
Qed.

(** X7 on a batch whose second action is 2, with two actions in the
    network. *)
Lemma X7_calc_loss_action_out_of_range_witness :
  calc_loss source_constants
    ([0; 4]%nat, [0; 2]%nat, [1; -1]%Q, [0; 1], [1; 5]%nat)
    (fun s => torch.row (inject_Z (Z.of_nat s)) [7%Q])
    (fun s => torch.row (inject_Z (Z.of_nat s)) [7%Q]) =
  Raise "RuntimeError".
Proof.
  apply (@X7_calc_loss_action_out_of_range nat source_constants
           [0; 4]%nat [0; 2]%nat [1; -1]%Q [0; 1] [1; 5]%nat
           (fun s => torch.row (inject_Z (Z.of_nat s)) [7%Q])
           (fun s => torch.row (inject_Z (Z.of_nat s)) [7%Q])
           1%nat 4%nat 2%nat).
  - cbn. repeat split.
  - reflexivity.
  - reflexivity.
  - cbn. lia.
Defined.

(** ** One append *)

(** X8. On a buffer of capacity at least 1, [append] puts the transition at
    the newest position, where indexing finds it; while the buffer is not
    full nothing is dropped, and once it is full the oldest transition, and
    only that one, is dropped. *)
Theorem X8_append_newest_and_eviction {Obs : Type}
    (b : ExperienceBuffer.t Obs) (x : Experience.t Obs) :
  ExperienceBuffer.wf b ->
  (0 < capacity_of b)%nat ->
  deque.getitem (ExperienceBuffer.buffer (ExperienceBuffer.append x b))
    (ExperienceBuffer.__len__ (ExperienceBuffer.append x b) - 1) = Ok x /\
  ((ExperienceBuffer.__len__ b < capacity_of b)%nat ->
   ExperienceBuffer.contents (ExperienceBuffer.append x b) =
   ExperienceBuffer.contents b ++ [x]) /\
  (ExperienceBuffer.__len__ b = capacity_of b ->
   ExperienceBuffer.contents (ExperienceBuffer.append x b) =
   tl (ExperienceBuffer.contents b) ++ [x]).
Proof.
  intros Hwf Hcap.
  assert (Hc := contents_append x Hwf).
  assert (Hlen : length (ExperienceBuffer.contents b) = ExperienceBuffer.__len__ b)
    by reflexivity.
  assert (Hle : (ExperienceBuffer.__len__ b <= capacity_of b)%nat) by exact Hwf.
  assert (Hcases :
    ExperienceBuffer.contents (ExperienceBuffer.append x b) =
      ExperienceBuffer.contents b ++ [x] /\
      (ExperienceBuffer.__len__ b < capacity_of b)%nat \/
    ExperienceBuffer.contents (ExperienceBuffer.append x b) =
      tl (ExperienceBuffer.contents b) ++ [x] /\
      ExperienceBuffer.__len__ b = capacity_of b).
  { rewrite Hc, Hlen.
    destruct (Nat.eq_dec (ExperienceBuffer.__len__ b) (capacity_of b))
      as [Hfull | Hroom].
    - right. split; [| exact Hfull].
      replace (_ + 1 - _)%nat with 1%nat by lia.
      destruct (ExperienceBuffer.contents b) as [| e l] eqn:Hl;
        [cbn in Hlen; lia | reflexivity].
    - left. split; [| lia].
      replace (_ + 1 - _)%nat with 0%nat by lia. reflexivity. }
  split; [| split].
  - unfold deque.getitem, ExperienceBuffer.__len__, deque.len.
    change (deque.items (ExperienceBuffer.buffer (ExperienceBuffer.append x b)))
      with (ExperienceBuffer.contents (ExperienceBuffer.append x b)).
    destruct Hcases as [[-> _] | [-> _]];
      rewrite length_app, nth_error_app2 by (cbn; lia);
      cbn [length];
      match goal with
      | |- context [nth_error [x] ?k] => replace k with 0%nat by lia
      end; reflexivity.
  - intros Hroom. destruct Hcases as [[-> _] | [_ Hfull]]; [reflexivity | lia].
  - intros Hfull. destruct Hcases as [[_ Hroom] | [-> _]]; [lia | reflexivity].
Qed.

(** X8 on the full buffer (capacity 3) of the agent after three calls. *)
Lemma X8_append_newest_and_eviction_witness :
  ExperienceBuffer.contents
    (ExperienceBuffer.append (Experience.mk 7%nat 0%nat 1%Q false 8%nat)
       (Agent.exp_buffer (snd (FiveSteps.play 3)))) =
  tl (ExperienceBuffer.contents (Agent.exp_buffer (snd (FiveSteps.play 3))))
  ++ [Experience.mk 7%nat 0%nat 1%Q false 8%nat].
Proof.
  refine (proj2 (proj2
            (@X8_append_newest_and_eviction nat
               (Agent.exp_buffer (snd (FiveSteps.play 3)))
               (Experience.mk 7%nat 0%nat 1%Q false 8%nat) _ _)) _).
  - unfold ExperienceBuffer.wf, deque.wf. vm_compute. repeat constructor.
  - vm_compute. repeat constructor.
  - reflexivity.
Defined.

(** X9. A buffer of capacity 0 stays empty whatever is appended to it. *)
Theorem X9_capacity_zero_stays_empty {Obs : Type}
    (b : ExperienceBuffer.t Obs) (xs : list (Experience.t Obs)) :
  ExperienceBuffer.wf b ->
  capacity_of b = 0%nat ->
  ExperienceBuffer.contents (appends xs b) = [].
Proof.
  intros Hwf Hzero.
  pose proof (wf_appends xs Hwf) as Hw.
  unfold ExperienceBuffer.wf, deque.wf in Hw.
  change (deque.maxlen _) with (capacity_of (appends xs b)) in Hw.
  rewrite capacity_appends, Hzero in Hw.
  apply length_zero_iff_nil.
  unfold ExperienceBuffer.contents. lia.
Qed.

(** X9 on the buffer that startup builds for a replay size of 0. *)
Lemma X9_capacity_zero_stays_empty_witness :
  ExperienceBuffer.contents
    (appends [Experience.mk 7%nat 0%nat 1%Q false 8%nat]
       (Main.buffer FiveSteps.start_zero)) = [].
Proof.
  apply (@X9_capacity_zero_stays_empty nat
           (Main.buffer FiveSteps.start_zero)
           [Experience.mk 7%nat 0%nat 1%Q false 8%nat]).
  - unfold ExperienceBuffer.wf, deque.wf. vm_compute. constructor.
  - reflexivity.
Defined.

(** ** Runs of calls of the agent *)

Section RunFacts.
Context {Obs E : Type} `{gym.Env Obs E}.
Implicit Types (self : Agent.t Obs E) (net : Obs -> torch.qvals).

(** The first call of a run: its stored transition, its return value and
    the agent it leaves, in terms of what the environment returned. *)
Lemma play_steps_head net (epsilon u : Q) (draws : list (Q * Q)) self :
  exists e r self1,
    Agent.play_steps net ((epsilon, u) :: draws) self =
      ((e, r) :: fst (Agent.play_steps net draws self1),
       snd (Agent.play_steps net draws self1)) /\
    Experience.state e = Agent.state self /\
    Agent.exp_buffer self1 = ExperienceBuffer.append e (Agent.exp_buffer self) /\
    (Experience.done e = false ->
     r = None /\ Agent.state self1 = Experience.new_state e) /\
    (Experience.done e = true -> r <> None).
Proof.
  pose proof (play_steps_cons net epsilon u draws self) as Hc.
  pose proof (play_step_eq net epsilon u self) as Hp.
  destruct (Agent.select_action net epsilon u self) as [action env1].
  destruct (gym.step action env1) as [[[[new_state reward] terminated] truncated] env2].
  cbv zeta in Hc, Hp.
  do 3 eexists. split; [exact Hc |]. rewrite Hp.
  split; [reflexivity |].
  destruct terminated; cbn [fst snd Experience.done Experience.new_state].
  - split; [apply reset_exp_buffer |].
    split; [discriminate | intros _; discriminate].
  - split; [reflexivity |].
    split; [intros _; split; reflexivity | discriminate].
Qed.
End RunFacts.

(** X10. After a run of calls of [play_step], the buffer is the buffer
    before the run with the transitions of the calls appended in order, one
    per call; its occupancy is [min(previous + number of calls, capacity)]. *)
Theorem X10_run_appends_every_transition {Obs E : Type} `{gym.Env Obs E}
    (net : Obs -> torch.qvals) (draws : list (Q * Q)) (self : Agent.t Obs E) :
  ExperienceBuffer.wf (Agent.exp_buffer self) ->
  Agent.exp_buffer (snd (Agent.play_steps net draws self)) =
    appends (map fst (fst (Agent.play_steps net draws self)))
            (Agent.exp_buffer self) /\
  length (fst (Agent.play_steps net draws self)) = length draws /\
  ExperienceBuffer.__len__
    (Agent.exp_buffer (snd (Agent.play_steps net draws self))) =
    Nat.min (ExperienceBuffer.__len__ (Agent.exp_buffer self) + length draws)
            (capacity_of (Agent.exp_buffer self)).
Proof.
  intros Hwf.
  assert (Hbuf : forall ds (ag : Agent.t Obs E),
    Agent.exp_buffer (snd (Agent.play_steps net ds ag)) =
    appends (map fst (fst (Agent.play_steps net ds ag)))
            (Agent.exp_buffer ag)).
  { induction ds as [| [epsilon u] ds IH]; intros ag; [reflexivity |].
    destruct (play_steps_head net epsilon u ds ag)
      as (e & r & ag1 & -> & _ & Hb & _).
    cbn [fst snd map]. rewrite IH, Hb. reflexivity. }
  split; [apply Hbuf |]. split; [apply play_steps_length |].
  rewrite Hbuf.
  change (ExperienceBuffer.__len__ ?b)
    with (length (ExperienceBuffer.contents b)).
  rewrite contents_appends by assumption.
  rewrite length_skipn, length_app, length_map, play_steps_length.
  assert (Hle : (length (ExperienceBuffer.contents (Agent.exp_buffer self))
                 <= capacity_of (Agent.exp_buffer self))%nat) by exact Hwf.
  lia.
Qed.

(** X10 on five calls in the five-step environment, buffer of capacity 3. *)
Lemma X10_run_appends_every_transition_witness :
  ExperienceBuffer.__len__ (Agent.exp_buffer (snd (FiveSteps.play 5))) =
  3%nat.
Proof.
  destruct (@X10_run_appends_every_transition nat nat FiveSteps.env
              FiveSteps.net (FiveSteps.greedy 5) FiveSteps.agent0)
    as (_ & _ & Hlen).
  - unfold ExperienceBuffer.wf, deque.wf. vm_compute. repeat constructor.
  - exact Hlen.
Defined.

(** X11. In a run of calls of [play_step], a call returns [None] exactly
    when the transition it stored is not terminal; the first transition
    starts from the agent's state; and the transition that follows one that
    is not terminal starts from the state that one ended in. *)
Theorem X11_transitions_chain {Obs E : Type} `{gym.Env Obs E}
    (net : Obs -> torch.qvals) (draws : list (Q * Q)) :
  forall (self : Agent.t Obs E),
    (forall e r,
       nth_error (fst (Agent.play_steps net draws self)) 0 = Some (e, r) ->
       Experience.state e = Agent.state self) /\
    (forall i e r,
       nth_error (fst (Agent.play_steps net draws self)) i = Some (e, r) ->
       (r = None <-> Experience.done e = false)) /\
    (forall i e1 r1 e2 r2,
       nth_error (fst (Agent.play_steps net draws self)) i = Some (e1, r1) ->
       nth_error (fst (Agent.play_steps net draws self)) (S i) =
         Some (e2, r2) ->
       Experience.done e1 = false ->
       Experience.state e2 = Experience.new_state e1).
Proof.
  induction draws as [| [epsilon u] draws IH]; intros self.
  - cbn. repeat split; intros; try discriminate;
      match goal with
      | Hn : nth_error [] ?i = Some _ |- _ => destruct i; discriminate
      end.
  - destruct (play_steps_head net epsilon u draws self)
      as (e & r & self1 & -> & Hst & _ & Hcont & Hterm).
    destruct (IH self1) as (IH0 & IHr & IHc).
    cbn [fst]. split; [| split].
    + intros e0 r0 H0. cbn in H0. inversion H0; subst. exact Hst.
    + intros [| i] e0 r0 Hi; cbn in Hi.
      * inversion Hi; subst. split.
        -- intros ->. destruct (Experience.done e0) eqn:Hd; [| reflexivity].
           exfalso. now apply Hterm.
        -- intros Hd. now apply Hcont.
      * exact (IHr i e0 r0 Hi).
    + intros [| i] e1 r1 e2 r2 H1 H2 Hd; cbn in H1, H2.
      * inversion H1; subst.
        rewrite (IH0 e2 r2 H2). now apply Hcont.
      * exact (IHc i e1 r1 e2 r2 H1 H2 Hd).
Qed.

(** X11 on the first two calls in the five-step environment. *)
Lemma X11_transitions_chain_witness :
  Experience.state (Experience.mk 1%nat 0%nat 1%Q false 2%nat) =
  Experience.new_state (Experience.mk 0%nat 0%nat 1%Q false 1%nat).
Proof.
  apply (proj2 (proj2
           (@X11_transitions_chain nat nat FiveSteps.env FiveSteps.net
              (FiveSteps.greedy 3) FiveSteps.agent0)) 0%nat
           (Experience.mk 0%nat 0%nat 1%Q false 1%nat) None
           (Experience.mk 1%nat 0%nat 1%Q false 2%nat) None).
  - vm_compute. reflexivity.
  - vm_compute. reflexivity.
  - reflexivity.
Defined.

(** ** More on the main loop *)

Section MainMore.
Context {Obs E Params Opt : Type}.
Context `{gym.Env Obs E} `{torch.Learner Params Opt Obs}.
Variable hp : Hyper.
Implicit Types (s : Main.t Obs E Params Opt) (dr : Draws).

Lemma play_step_buffer (net : Obs -> torch.qvals) (epsilon u : Q)
    (self : Agent.t Obs E) :
  exists e,
    Agent.exp_buffer (snd (Agent.play_step net epsilon u self)) =
    ExperienceBuffer.append e (Agent.exp_buffer self).
Proof.
  pose proof (play_step_eq net epsilon u self) as Hp.
  destruct (Agent.select_action net epsilon u self) as [action env1].
  destruct (gym.step action env1) as [[[[new_state reward] terminated] truncated] env2].
  cbv zeta in Hp. rewrite Hp.
  destruct terminated; eexists; cbn [snd];
    [rewrite reset_exp_buffer |]; reflexivity.
Qed.

(** The training part touches only the networks and the optimiser. *)
Lemma train_keeps dr s :
  let s' := fst (Main.train hp dr s) in
  Main.agent s' = Main.agent s /\ Main.frame_idx s' = Main.frame_idx s /\
  Main.total_rewards s' = Main.total_rewards s /\
  Main.best_m_reward s' = Main.best_m_reward s /\
  Main.epsilon s' = Main.epsilon s.
Proof.
  unfold Main.train.
  destruct (_ <? _); [repeat split |].
  destruct (_ =? _); [repeat split |].
  destruct (fst (ExperienceBuffer.sample _ _ _)) as [batch | e];
    [| repeat split].
  destruct (calc_loss _ _ _ _) as [loss_t | e]; [| repeat split].
  destruct (torch.backward_step _ _ _) as [net' optimizer'].
  repeat split.
Qed.

Lemma train_never_breaks dr s : snd (Main.train hp dr s) <> Break.
Proof.
  unfold Main.train.
  destruct (_ <? _); [discriminate |].
  destruct (_ =? _); [discriminate |].
  destruct (fst (ExperienceBuffer.sample _ _ _)) as [batch | e];
    [| discriminate].
  destruct (calc_loss _ _ _ _) as [loss_t | e]; [| discriminate].
  destruct (torch.backward_step _ _ _) as [net' optimizer'].
  discriminate.
Qed.

(** Below the warm-up size the training part does nothing. *)
Lemma train_warmup dr s :
  Z.of_nat (ExperienceBuffer.__len__ (Main.buffer s)) < REPLAY_START_SIZE hp ->
  Main.train hp dr s = (s, Continue).
Proof.
  intros Hsmall. unfold Main.train.
  destruct (Z.ltb_spec (Z.of_nat (ExperienceBuffer.__len__ (Main.buffer s)))
              (REPLAY_START_SIZE hp)); [reflexivity | lia].
Qed.

(** One iteration, by cases on the schedule, the agent's call and the end
    of the episode: [P] holds of the result as soon as it holds in each of
    the four ways an iteration can go. *)
Lemma loop_body_cases dr s (P : Main.t Obs E Params Opt * outcome -> Prop) :
  (forall e,
     Main.epsilon_schedule hp (Main.frame_idx s + 1) = Raise e ->
     P (Main.mk (Main.net s) (Main.tgt_net s) (Main.agent s) (Main.epsilon s)
          (Main.optimizer s) (Main.total_rewards s) (Main.frame_idx s + 1)
          (Main.ts_frame s) (Main.ts s) (Main.best_m_reward s), Raised e)) ->
  (forall epsilon' reward agent' s1,
     Main.epsilon_schedule hp (Main.frame_idx s + 1) = Ok epsilon' ->
     Agent.play_step (torch.forward (Main.net s)) epsilon' (u dr)
       (Main.agent s) = (reward, agent') ->
     s1 = Main.mk (Main.net s) (Main.tgt_net s) agent' epsilon'
            (Main.optimizer s) (Main.total_rewards s) (Main.frame_idx s + 1)
            (Main.ts_frame s) (Main.ts s) (Main.best_m_reward s) ->
     match reward with
     | None => P (Main.train hp dr s1)
     | Some r =>
         match snd (Main.episode_done hp dr r s1) with
         | Continue => P (Main.train hp dr (fst (Main.episode_done hp dr r s1)))
         | _ => P (Main.episode_done hp dr r s1)
         end
     end) ->
  P (Main.loop_body hp dr s).
Proof.
  intros Hraise Hstep. unfold Main.loop_body.
  destruct (Main.epsilon_schedule hp (Main.frame_idx s + 1))
    as [epsilon' | e]; [| now apply Hraise].
  destruct (Agent.play_step _ epsilon' (u dr) (Main.agent s))
    as [reward agent'] eqn:Hplay.
  specialize (Hstep epsilon' reward agent' _ eq_refl Hplay eq_refl).
  destruct reward as [r |]; [| exact Hstep].
  destruct (Main.episode_done hp dr r _) as [s2 o2].
  cbn [fst snd] in Hstep. destruct o2; exact Hstep.
Qed.

(** The end of an episode: what it keeps and what it records. *)
Lemma episode_done_records dr (reward : Q) s :
  let s' := fst (Main.episode_done hp dr reward s) in
  Main.optimizer s' = Main.optimizer s /\ Main.epsilon s' = Main.epsilon s /\
  Main.total_rewards s' = Main.total_rewards s ++ [reward].
Proof.
  unfold Main.episode_done.
  destruct (Qeq_bool (now dr - Main.ts s) 0); [repeat split |].
  destruct (Qlt_bool _ _); repeat split.
Qed.
End MainMore.

Section LoopFacts.
Context {Obs E Params Opt : Type}.
Context `{gym.Env Obs E} `{torch.Learner Params Opt Obs}.
Variable hp : Hyper.
Implicit Types (s : Main.t Obs E Params Opt) (dr : Draws).

Lemma len_append_le (b : ExperienceBuffer.t Obs) (x : Experience.t Obs) :
  (ExperienceBuffer.__len__ (ExperienceBuffer.append x b)
   <= ExperienceBuffer.__len__ b + 1)%nat.
Proof.
  destruct b as [[M l]].
  unfold ExperienceBuffer.__len__, ExperienceBuffer.append, deque.append,
    deque.len.
  cbn [ExperienceBuffer.buffer deque.items deque.maxlen].
  destruct (M <? length (l ++ [x]))%nat.
  - destruct l; cbn; rewrite ?length_app; cbn; lia.
  - rewrite length_app. cbn. lia.
Qed.

(** The buffer after one iteration: the one before it, with at most one
    transition appended. *)
Lemma loop_body_buffer dr s :
  Main.buffer (fst (Main.loop_body hp dr s)) = Main.buffer s \/
  exists e,
    Main.buffer (fst (Main.loop_body hp dr s)) =
    ExperienceBuffer.append e (Main.buffer s).
Proof.
  apply (loop_body_cases hp dr s
           (fun res => Main.buffer (fst res) = Main.buffer s \/
                       exists e, Main.buffer (fst res) =
                                 ExperienceBuffer.append e (Main.buffer s))).
  - intros e _. now left.
  - intros epsilon' reward agent' s1 _ Hplay ->.
    destruct (play_step_buffer (torch.forward (Main.net s)) epsilon' (u dr)
                (Main.agent s)) as (e & He).
    rewrite Hplay in He. cbn [snd] in He.
    assert (Htrain : forall s2 : Main.t Obs E Params Opt,
      Main.agent s2 = agent' ->
      Main.buffer (fst (Main.train hp dr s2)) = Main.buffer s \/
      exists e, Main.buffer (fst (Main.train hp dr s2)) =
                ExperienceBuffer.append e (Main.buffer s)).
    { intros s2 Hag. right. exists e.
      destruct (train_keeps hp dr s2) as (Hk & _).
      unfold Main.buffer. cbv zeta in Hk. rewrite Hk, Hag. exact He. }
    destruct reward as [r |]; [| now apply Htrain].
    match goal with
    | |- context [Main.episode_done hp dr r ?s1] =>
        destruct (episode_done_keeps hp dr r s1) as (_ & _ & Hag & _);
        destruct (snd (Main.episode_done hp dr r s1))
    end; cbv zeta in Hag; cbn [Main.agent] in Hag.
    + now apply Htrain.
    + right. exists e. unfold Main.buffer. rewrite Hag. exact He.
    + right. exists e. unfold Main.buffer. rewrite Hag. exact He.
Qed.

Lemma loop_body_frame_idx dr s :
  Main.frame_idx (fst (Main.loop_body hp dr s)) = Main.frame_idx s + 1.
Proof.
  apply (loop_body_cases hp dr s
           (fun res => Main.frame_idx (fst res) = Main.frame_idx s + 1)).
  - reflexivity.
  - intros epsilon' reward agent' s1 _ _ ->.
    assert (Htrain : forall s2 : Main.t Obs E Params Opt,
      Main.frame_idx s2 = Main.frame_idx s + 1 ->
      Main.frame_idx (fst (Main.train hp dr s2)) = Main.frame_idx s + 1).
    { intros s2 Hf. destruct (train_keeps hp dr s2) as (_ & Hk & _).
      cbv zeta in Hk. now rewrite Hk. }
    destruct reward as [r |]; [| now apply Htrain].
    match goal with
    | |- context [Main.episode_done hp dr r ?s1] =>
        destruct (episode_done_keeps hp dr r s1) as (_ & _ & _ & Hf);
        destruct (snd (Main.episode_done hp dr r s1))
    end; cbv zeta in Hf; cbn [Main.frame_idx] in Hf;
      [now apply Htrain | exact Hf | exact Hf].
Qed.

(** An iteration that ends below the warm-up size has trained nothing. *)
Lemma loop_body_below_gate dr s :
  Z.of_nat (ExperienceBuffer.__len__
              (Main.buffer (fst (Main.loop_body hp dr s))))
  < REPLAY_START_SIZE hp ->
  Main.net (fst (Main.loop_body hp dr s)) = Main.net s /\
  Main.tgt_net (fst (Main.loop_body hp dr s)) = Main.tgt_net s /\
  Main.optimizer (fst (Main.loop_body hp dr s)) = Main.optimizer s.
Proof.
  apply (loop_body_cases hp dr s
           (fun res =>
              Z.of_nat (ExperienceBuffer.__len__ (Main.buffer (fst res)))
              < REPLAY_START_SIZE hp ->
              Main.net (fst res) = Main.net s /\
              Main.tgt_net (fst res) = Main.tgt_net s /\
              Main.optimizer (fst res) = Main.optimizer s)).
  - intros e _ _. repeat split.
  - intros epsilon' reward agent' s1 _ _ ->.
    assert (Htrain : forall s2 : Main.t Obs E Params Opt,
      Main.net s2 = Main.net s -> Main.tgt_net s2 = Main.tgt_net s ->
      Main.optimizer s2 = Main.optimizer s ->
      Z.of_nat (ExperienceBuffer.__len__
                  (Main.buffer (fst (Main.train hp dr s2))))
      < REPLAY_START_SIZE hp ->
      Main.net (fst (Main.train hp dr s2)) = Main.net s /\
      Main.tgt_net (fst (Main.train hp dr s2)) = Main.tgt_net s /\
      Main.optimizer (fst (Main.train hp dr s2)) = Main.optimizer s).
    { intros s2 Hn Ht Ho Hsmall.
      destruct (train_keeps hp dr s2) as (Hk & _). cbv zeta in Hk.
      unfold Main.buffer in Hsmall. rewrite Hk in Hsmall.
      rewrite (train_warmup hp dr s2 Hsmall). cbn [fst]. auto. }
    destruct reward as [r |]; [| now apply Htrain].
    match goal with
    | |- context [Main.episode_done hp dr r ?s1] =>
        destruct (episode_done_keeps hp dr r s1) as (Hn & Ht & _ & _);
        destruct (episode_done_records hp dr r s1) as (Ho & _ & _);
        destruct (snd (Main.episode_done hp dr r s1))
    end; cbv zeta in Hn, Ht, Ho;
      cbn [Main.net Main.tgt_net Main.optimizer] in Hn, Ht, Ho.
    + now apply Htrain.
    + intros _. auto.
    + intros _. auto.
Qed.
End LoopFacts.

(** X12. An iteration of the loop after which the buffer holds fewer than
    [REPLAY_START_SIZE] transitions has changed neither network nor the
    optimiser: there is no training during warm-up. *)
Theorem X12_warmup_iteration_trains_nothing {Obs E Params Opt : Type}
    `{gym.Env Obs E} `{torch.Learner Params Opt Obs}
    (hp : Hyper) (dr : Draws) (s : Main.t Obs E Params Opt) :
  Z.of_nat (ExperienceBuffer.__len__
              (Main.buffer (fst (Main.loop_body hp dr s))))
  < REPLAY_START_SIZE hp ->
  Main.net (fst (Main.loop_body hp dr s)) = Main.net s /\
  Main.tgt_net (fst (Main.loop_body hp dr s)) = Main.tgt_net s /\
  Main.optimizer (fst (Main.loop_body hp dr s)) = Main.optimizer s.
Proof. apply loop_body_below_gate. Qed.

(** X12 on the first iteration of the program with the constants of the
    source. *)
Lemma X12_warmup_iteration_trains_nothing_witness :
  Main.net (fst (@Main.loop_body nat nat nat unit FiveSteps.env
                   FiveSteps.learner source_constants (FiveSteps.draws_at 1)
                   FiveSteps.start)) = 1%nat /\
  Main.tgt_net (fst (@Main.loop_body nat nat nat unit FiveSteps.env
                       FiveSteps.learner source_constants
                       (FiveSteps.draws_at 1) FiveSteps.start)) = 0%nat /\
  Main.optimizer (fst (@Main.loop_body nat nat nat unit FiveSteps.env
                         FiveSteps.learner source_constants
                         (FiveSteps.draws_at 1) FiveSteps.start)) = tt.
Proof.
  apply (@X12_warmup_iteration_trains_nothing nat nat nat unit FiveSteps.env
           FiveSteps.learner source_constants (FiveSteps.draws_at 1)
           FiveSteps.start).
  vm_compute. reflexivity.
Defined.

Section RunLoopFacts.
Context {Obs E Params Opt : Type}.
Context `{gym.Env Obs E} `{torch.Learner Params Opt Obs}.
Variable hp : Hyper.
Implicit Types (s : Main.t Obs E Params Opt) (dr : Draws).

Lemma loop_cons dr (draws : list Draws) s :
  (snd (Main.loop_body hp dr s) = Continue /\
   Main.loop hp (dr :: draws) s =
   Main.loop hp draws (fst (Main.loop_body hp dr s))) \/
  (snd (Main.loop_body hp dr s) <> Continue /\
   Main.loop hp (dr :: draws) s = Main.loop_body hp dr s).
Proof.
  cbn [Main.loop]. destruct (Main.loop_body hp dr s) as [s' o].
  destruct o; cbn [fst snd];
    [left; split; reflexivity | right; split; [discriminate | reflexivity] ..].
Qed.

Lemma loop_body_len_le dr s :
  (ExperienceBuffer.__len__ (Main.buffer (fst (Main.loop_body hp dr s)))
   <= ExperienceBuffer.__len__ (Main.buffer s) + 1)%nat.
Proof.
  destruct (loop_body_buffer hp dr s) as [-> | (e & ->)];
    [lia | apply len_append_le].
Qed.

Lemma loop_body_wf dr s :
  ExperienceBuffer.wf (Main.buffer s) ->
  ExperienceBuffer.wf (Main.buffer (fst (Main.loop_body hp dr s))) /\
  capacity_of (Main.buffer (fst (Main.loop_body hp dr s))) =
  capacity_of (Main.buffer s).
Proof.
  intros Hwf.
  destruct (loop_body_buffer hp dr s) as [-> | (e & ->)];
    [split; [assumption | reflexivity] |].
  split; [now apply wf_append | apply capacity_append].
Qed.

Lemma loop_wf (draws : list Draws) : forall s,
  ExperienceBuffer.wf (Main.buffer s) ->
  ExperienceBuffer.wf (Main.buffer (fst (Main.loop hp draws s))) /\
  capacity_of (Main.buffer (fst (Main.loop hp draws s))) =
  capacity_of (Main.buffer s).
Proof.
  induction draws as [| dr draws IH]; intros s Hwf;
    [split; [assumption | reflexivity] |].
  destruct (@loop_body_wf dr s Hwf) as (Hwf1 & Hcap1).
  destruct (loop_cons dr draws s) as [[_ ->] | [_ ->]].
  - destruct (IH _ Hwf1) as (Hwf2 & Hcap2).
    split; [assumption | congruence].
  - split; assumption.
Qed.
End RunLoopFacts.

(** X13. Started from variables whose buffer holds [m] transitions, the
    first [n] iterations of the loop leave both networks and the optimiser
    untouched as long as [m + n < REPLAY_START_SIZE]. *)
Theorem X13_warmup_run_trains_nothing {Obs E Params Opt : Type}
    `{gym.Env Obs E} `{torch.Learner Params Opt Obs}
    (hp : Hyper) (draws : list Draws) :
  forall s : Main.t Obs E Params Opt,
    Z.of_nat (ExperienceBuffer.__len__ (Main.buffer s)) +
    Z.of_nat (length draws) < REPLAY_START_SIZE hp ->
    Main.net (fst (Main.loop hp draws s)) = Main.net s /\
    Main.tgt_net (fst (Main.loop hp draws s)) = Main.tgt_net s /\
    Main.optimizer (fst (Main.loop hp draws s)) = Main.optimizer s.
Proof.
  induction draws as [| dr draws IH]; intros s Hsmall; [repeat split |].
  cbn [length] in Hsmall.
  pose proof (loop_body_len_le hp dr s) as Hlen.
  destruct (@loop_body_below_gate _ _ _ _ _ _ hp dr s) as (Hn & Ht & Ho);
    [lia |].
  destruct (loop_cons hp dr draws s) as [[_ ->] | [_ ->]].
  - destruct (IH (fst (Main.loop_body hp dr s))) as (Hn' & Ht' & Ho');
      [lia |].
    repeat split; congruence.
  - repeat split; assumption.
Qed.

(** X13 on the first 999 iterations of the program with the constants of
    the source. *)
Lemma X13_warmup_run_trains_nothing_witness :
  Main.net (fst (FiveSteps.after source_constants 999)) = 1%nat /\
  Main.tgt_net (fst (FiveSteps.after source_constants 999)) = 0%nat /\
  Main.optimizer (fst (FiveSteps.after source_constants 999)) = tt.
Proof.
  apply (@X13_warmup_run_trains_nothing nat nat nat unit FiveSteps.env
           FiveSteps.learner source_constants (FiveSteps.draws_upto 999)
           FiveSteps.start).
  vm_compute. reflexivity.
Defined.

(** X14. When the capacity of the buffer is below [REPLAY_START_SIZE], the
    loop never trains: whatever the number of iterations, both networks and
    the optimiser stay as they were. *)
Theorem X14_small_buffer_never_trains {Obs E Params Opt : Type}
    `{gym.Env Obs E} `{torch.Learner Params Opt Obs}
    (hp : Hyper) (draws : list Draws) :
  forall s : Main.t Obs E Params Opt,
    ExperienceBuffer.wf (Main.buffer s) ->
    Z.of_nat (capacity_of (Main.buffer s)) < REPLAY_START_SIZE hp ->
    Main.net (fst (Main.loop hp draws s)) = Main.net s /\
    Main.tgt_net (fst (Main.loop hp draws s)) = Main.tgt_net s /\
    Main.optimizer (fst (Main.loop hp draws s)) = Main.optimizer s.
Proof.
  induction draws as [| dr draws IH]; intros s Hwf Hcap; [repeat split |].
  destruct (@loop_body_wf _ _ _ _ _ _ hp dr s Hwf) as (Hwf1 & Hcap1).
  destruct (@loop_body_below_gate _ _ _ _ _ _ hp dr s) as (Hn & Ht & Ho).
  { assert (ExperienceBuffer.__len__
              (Main.buffer (fst (Main.loop_body hp dr s)))
            <= capacity_of (Main.buffer (fst (Main.loop_body hp dr s))))%nat
      by exact Hwf1.
    lia. }
  destruct (loop_cons hp dr draws s) as [[_ ->] | [_ ->]].
  - destruct (IH (fst (Main.loop_body hp dr s)) Hwf1) as (Hn' & Ht' & Ho');
      [lia |].
    repeat split; congruence.
  - repeat split; assumption.
Qed.

(** X14 on 30 iterations of the program started with a replay size of 0. *)
Lemma X14_small_buffer_never_trains_witness :
  Main.net
    (fst (@Main.loop nat nat nat unit FiveSteps.env FiveSteps.learner
            FiveSteps.eager_constants (FiveSteps.draws_upto 30)
            FiveSteps.start_zero)) = 1%nat /\
  Main.tgt_net
    (fst (@Main.loop nat nat nat unit FiveSteps.env FiveSteps.learner
            FiveSteps.eager_constants (FiveSteps.draws_upto 30)
            FiveSteps.start_zero)) = 0%nat /\
  Main.optimizer
    (fst (@Main.loop nat nat nat unit FiveSteps.env FiveSteps.learner
            FiveSteps.eager_constants (FiveSteps.draws_upto 30)
            FiveSteps.start_zero)) = tt.
Proof.
  apply (@X14_small_buffer_never_trains nat nat nat unit FiveSteps.env
           FiveSteps.learner FiveSteps.eager_constants
           (FiveSteps.draws_upto 30) FiveSteps.start_zero).
  - unfold ExperienceBuffer.wf, deque.wf. vm_compute. constructor.
  - vm_compute. reflexivity.
Defined.

(** X15. Every iteration advances the frame counter by exactly one: a run
    of the loop that has not stopped has advanced it by the number of
    iterations, and a run that stopped by at least 1 and at most that
    number. *)
Theorem X15_frame_counter {Obs E Params Opt : Type}
    `{gym.Env Obs E} `{torch.Learner Params Opt Obs}
    (hp : Hyper) (draws : list Draws) :
  forall s : Main.t Obs E Params Opt,
    (snd (Main.loop hp draws s) = Continue ->
     Main.frame_idx (fst (Main.loop hp draws s)) =
     Main.frame_idx s + Z.of_nat (length draws)) /\
    (snd (Main.loop hp draws s) <> Continue ->
     Main.frame_idx s + 1 <= Main.frame_idx (fst (Main.loop hp draws s))
     <= Main.frame_idx s + Z.of_nat (length draws)).
Proof.
  induction draws as [| dr draws IH]; intros s.
  - cbn. split; [intros _; lia | intros Hc; now contradiction Hc].
  - pose proof (loop_body_frame_idx hp dr s) as Hf.
    cbn [length]. rewrite Nat2Z.inj_succ.
    destruct (loop_cons hp dr draws s) as [[_ ->] | [Hstop ->]].
    + destruct (IH (fst (Main.loop_body hp dr s))) as (IHc & IHs).
      split.
      * intros Hc. rewrite (IHc Hc), Hf. lia.
      * intros Hc. specialize (IHs Hc). rewrite Hf in IHs. lia.
    + split; [intros Hc; contradiction | intros _; rewrite Hf; lia].
Qed.

(** X15 on 999 iterations of the program with the constants of the
    source. *)
Lemma X15_frame_counter_witness :
  Main.frame_idx (fst (FiveSteps.after source_constants 999)) = 0 + 999.
Proof.
  refine (proj1 (@X15_frame_counter nat nat nat unit FiveSteps.env
                   FiveSteps.learner source_constants
                   (FiveSteps.draws_upto 999) FiveSteps.start) _).
  vm_compute. reflexivity.
Defined.

(** X16. An iteration ends the loop as solved exactly when the agent's call
    ended an episode, the clock has moved since the previous episode, and
    the mean of the last (at most 100) episode rewards, the new one
    included, is above [MEAN_REWARD_BOUND]. *)
Theorem X16_solved_exactly_when {Obs E Params Opt : Type}
    `{gym.Env Obs E} `{torch.Learner Params Opt Obs}
    (hp : Hyper) (dr : Draws) (s : Main.t Obs E Params Opt) :
  snd (Main.loop_body hp dr s) = Break <->
  exists epsilon' r,
    Main.epsilon_schedule hp (Main.frame_idx s + 1) = Ok epsilon' /\
    fst (Agent.play_step (torch.forward (Main.net s)) epsilon' (u dr)
           (Main.agent s)) = Some r /\
    ~ (now dr - Main.ts s == 0)%Q /\
    (inject_Z (MEAN_REWARD_BOUND hp)
     < mean_last_100 (Main.total_rewards s ++ [r]))%Q.
Proof.
  unfold Main.loop_body.
  destruct (Main.epsilon_schedule hp (Main.frame_idx s + 1))
    as [epsilon' | e].
  2: { split; [discriminate | intros (? & ? & Hd & _); discriminate Hd]. }
  destruct (Agent.play_step _ epsilon' (u dr) (Main.agent s))
    as [[r |] agent'] eqn:Hplay.
  2: { split.
       - intros Hb. now apply train_never_breaks in Hb.
       - intros (e' & r & Heq & Hr & _).
         inversion Heq; subst. rewrite Hplay in Hr. discriminate Hr. }
  unfold Main.episode_done.
  cbn [Main.total_rewards Main.ts Main.best_m_reward].
  destruct (Qeq_bool (now dr - Main.ts s) 0) eqn:Hclock.
  { split; [discriminate |].
    intros (e' & r' & _ & _ & Hne & _).
    apply Qeq_bool_iff in Hclock. contradiction. }
  assert (Hne : ~ (now dr - Main.ts s == 0)%Q)
    by (intros Heq; apply Qeq_bool_iff in Heq; congruence).
  destruct (Qlt_bool (inject_Z (MEAN_REWARD_BOUND hp))
              (mean_last_100 (Main.total_rewards s ++ [r]))) eqn:Hmean.
  - split; [intros _ | reflexivity].
    exists epsilon', r. split; [reflexivity |].
    split; [rewrite Hplay; reflexivity |].
    split; [exact Hne | now apply Qlt_bool_iff].
  - split.
    + intros Hb. now apply train_never_breaks in Hb.
    + intros (e' & r' & Heq & Hr & _ & Hlt).
      inversion Heq; subst. rewrite Hplay in Hr.
      cbn [fst] in Hr. inversion Hr; subst.
      apply Qlt_bool_iff in Hlt. congruence.
Qed.

(** X16 on iteration 5 of the five-step program with a bound of 4: the
    first episode pays 5. *)
Lemma X16_solved_exactly_when_witness :
  snd FiveSteps.iteration_5 = Break.
Proof.
  apply (proj2 (@X16_solved_exactly_when nat nat nat unit FiveSteps.env
                  FiveSteps.learner FiveSteps.easy_constants
                  (FiveSteps.draws_at 5) FiveSteps.before_iteration_5)).
  exists (py_max (1 # 100) (1 - inject_Z 5 / inject_Z 150000)), 5%Q.
  split; [vm_compute; reflexivity |].
  split; [vm_compute; reflexivity |].
  split; [vm_compute; discriminate | vm_compute; reflexivity].
Defined.

(** ** The best mean reward and the mean itself *)

Section BestFacts.
Context {Obs E Params Opt : Type}.
Context `{gym.Env Obs E} `{torch.Learner Params Opt Obs}.
Variable hp : Hyper.
Implicit Types (s : Main.t Obs E Params Opt) (dr : Draws).

Lemma episode_done_best dr (reward : Q) s (best : Q) :
  Main.best_m_reward s = Some best ->
  exists best',
    Main.best_m_reward (fst (Main.episode_done hp dr reward s)) = Some best' /\
    (best <= best')%Q.
Proof.
  intros Hb. unfold Main.episode_done. rewrite Hb.
  destruct (Qeq_bool (now dr - Main.ts s) 0).
  - exists best. split; [reflexivity | lra].
  - set (m := mean_last_100 (Main.total_rewards s ++ [reward])).
    assert (Hbest : exists best',
      (if Qlt_bool best m then Some m else Some best) = Some best' /\
      (best <= best')%Q).
    { destruct (Qlt_bool best m) eqn:Hlt.
      - apply Qlt_bool_iff in Hlt. exists m. split; [reflexivity | lra].
      - exists best. split; [reflexivity | lra]. }
    destruct (Qlt_bool (inject_Z (MEAN_REWARD_BOUND hp)) m);
      cbn [fst Main.best_m_reward]; exact Hbest.
Qed.

Lemma loop_body_best dr s (best : Q) :
  Main.best_m_reward s = Some best ->
  exists best',
    Main.best_m_reward (fst (Main.loop_body hp dr s)) = Some best' /\
    (best <= best')%Q.
Proof.
  intros Hb.
  apply (loop_body_cases hp dr s
           (fun res => exists best',
              Main.best_m_reward (fst res) = Some best' /\ (best <= best')%Q)).
  - intros e _. exists best. split; [exact Hb | lra].
  - intros epsilon' reward agent' s1 _ _ ->.
    assert (Htrain : forall (s2 : Main.t Obs E Params Opt) (b2 : Q),
      Main.best_m_reward s2 = Some b2 -> (best <= b2)%Q ->
      exists best',
        Main.best_m_reward (fst (Main.train hp dr s2)) = Some best' /\
        (best <= best')%Q).
    { intros s2 b2 H2 Hle.
      destruct (train_keeps hp dr s2) as (_ & _ & _ & Hk & _).
      cbv zeta in Hk. exists b2. split; [congruence | exact Hle]. }
    destruct reward as [r |];
      [| apply Htrain with (b2 := best); [exact Hb | lra]].
    match goal with
    | |- context [Main.episode_done hp dr r ?s1] =>
        destruct (@episode_done_best dr r s1 best Hb) as (b2 & H2 & Hle);
        destruct (snd (Main.episode_done hp dr r s1))
    end.
    + exact (Htrain _ b2 H2 Hle).
    + now exists b2.
    + now exists b2.
Qed.
End BestFacts.

(** X17. Once it is set, the best mean reward is never lowered and never
    unset by the loop. *)
Theorem X17_best_mean_never_decreases {Obs E Params Opt : Type}
    `{gym.Env Obs E} `{torch.Learner Params Opt Obs}
    (hp : Hyper) (draws : list Draws) :
  forall (s : Main.t Obs E Params Opt) (best : Q),
    Main.best_m_reward s = Some best ->
    exists best',
      Main.best_m_reward (fst (Main.loop hp draws s)) = Some best' /\
      (best <= best')%Q.
Proof.
  induction draws as [| dr draws IH]; intros s best Hb.
  - exists best. split; [exact Hb | lra].
  - destruct (@loop_body_best _ _ _ _ _ _ hp dr s best Hb) as (b1 & H1 & Hle1).
    destruct (loop_cons hp dr draws s) as [[_ ->] | [_ ->]].
    + destruct (IH _ b1 H1) as (b2 & H2 & Hle2).
      exists b2. split; [exact H2 | lra].
    + now exists b1.
Qed.

(** X17 on the five iterations that follow the first episode of the
    five-step program. *)
Lemma X17_best_mean_never_decreases_witness :
  exists best',
    Main.best_m_reward
      (fst (@Main.loop nat nat nat unit FiveSteps.env FiveSteps.learner
              source_constants (map FiveSteps.draws_at (seq 6 5))
              (fst (FiveSteps.after source_constants 5)))) = Some best' /\
    (5 <= best')%Q.
Proof.
  apply (@X17_best_mean_never_decreases nat nat nat unit FiveSteps.env
           FiveSteps.learner source_constants
           (map FiveSteps.draws_at (seq 6 5))
           (fst (FiveSteps.after source_constants 5)) 5%Q).
  vm_compute. reflexivity.
Defined.

(** X18. The mean that decides about the end of the loop looks at the last
    100 episode rewards only, and at all of them while there are at most
    100. *)
Theorem X18_mean_window (older recent : list Q) :
  (length recent = 100%nat ->
   mean_last_100 (older ++ recent) = mean_last_100 recent) /\
  ((length recent <= 100)%nat ->
   mean_last_100 recent =
   (fold_left Qplus recent 0 / inject_Z (Z.of_nat (length recent)))%Q).
Proof.
  unfold mean_last_100. split.
  - intros Hlen. rewrite length_app, Hlen.
    replace (length older + 100 - 100)%nat with (length older) by lia.
    rewrite skipn_app, skipn_all, Nat.sub_diag. reflexivity.
  - intros Hlen.
    replace (length recent - 100)%nat with 0%nat by lia. reflexivity.
Qed.

(** X18 on 100 rewards of 5 that follow two rewards of -21. *)
Lemma X18_mean_window_witness :
  mean_last_100 ([-21; -21]%Q ++ repeat 5%Q 100) =
  mean_last_100 (repeat 5%Q 100).
Proof.
  apply (proj1 (X18_mean_window [-21; -21]%Q (repeat 5%Q 100))).
  apply repeat_length.
Defined.

(** ** The shape of the exploration schedule *)

(** X19. With the constants of the source, the exploration probability
    falls linearly, as [1 - step / 150000], up to frame 148499, and is
    [EPSILON_FINAL] from frame 148501 on. *)
Theorem X19_epsilon_linear_then_floor (step : Z) :
  (step <= 148499 ->
   Main.epsilon_schedule source_constants step =
   Ok (1 - inject_Z step / inject_Z 150000)%Q) /\
  (148501 <= step ->
   Main.epsilon_schedule source_constants step = Ok (1 # 100)).
Proof.
  rewrite (epsilon_schedule_positive_horizon source_constants step eq_refl).
  change (EPSILON_FINAL source_constants) with (1 # 100).
  change (EPSILON_START source_constants) with 1%Q.
  change (EPSILON_DECAY_LAST_FRAME source_constants) with 150000.
  unfold Qdiv. change (/ inject_Z 150000)%Q with (1 # 150000).
  split; intros Hstep.
  - assert (Hq : (inject_Z step <= 148499 # 1)%Q)
      by (change (148499 # 1) with (inject_Z 148499);
          rewrite <- Zle_Qle; exact Hstep).
    destruct (py_max_spec (1 # 100) (1 - inject_Z step * (1 # 150000)))
      as [[_ ->] | [Hle _]]; [reflexivity |].
    exfalso. set (q := inject_Z step) in *. lra.
  - assert (Hq : (148501 # 1 <= inject_Z step)%Q)
      by (change (148501 # 1) with (inject_Z 148501);
          rewrite <- Zle_Qle; exact Hstep).
    destruct (py_max_spec (1 # 100) (1 - inject_Z step * (1 # 150000)))
      as [[Hlt _] | [_ ->]]; [| reflexivity].
    exfalso. set (q := inject_Z step) in *. lra.
Qed.

(** X19 at the frames 75000 and 149000. *)
Lemma X19_epsilon_linear_then_floor_witness :
  Main.epsilon_schedule source_constants 75000 =
    Ok (1 - inject_Z 75000 / inject_Z 150000)%Q /\
  Main.epsilon_schedule source_constants 149000 = Ok (1 # 100).
Proof.
  split.
  - apply (proj1 (X19_epsilon_linear_then_floor 75000)). discriminate.
  - apply (proj2 (X19_epsilon_linear_then_floor 149000)). discriminate.
Defined.

(** ** The warm-up gate and sampling *)

Lemma mapM_Raise_inv (A B : Type) (f : A -> result B) (l : list A)
    (e : string) :
  mapM f l = Raise e -> exists a, In a l /\ f a = Raise e.
Proof.
  induction l as [| a0 l IH]; [discriminate |].
  cbn [mapM]. destruct (f a0) as [b0 | e0] eqn:H0; cbn [bind].
  - destruct (mapM f l) as [bs | e1]; cbn [bind]; [discriminate |].
    intros Heq. inversion Heq; subst.
    destruct (IH eq_refl) as (a & Hin & Ha).
    exists a. split; [now right | exact Ha].
  - intros Heq. inversion Heq; subst. exists a0. split; [now left | exact H0].
Qed.

Lemma calc_loss_raises_only {Obs : Type} (hp : Hyper) (batch : Batch Obs)
    (net tgt_net : Obs -> torch.qvals) (e : string) :
  calc_loss hp batch net tgt_net = Raise e -> e = "RuntimeError".
Proof.
  destruct batch as [[[[states actions] rewards] dones] next_states].
  unfold calc_loss.
  destruct (mapM _ (combine states actions)) as [sav | e1] eqn:Hm;
    cbn [bind]; [discriminate |].
  intros Heq. inversion Heq; subst.
  apply mapM_Raise_inv in Hm. destruct Hm as ([s a] & _ & Ha).
  unfold torch.gather in Ha.
  destruct (nth_error (torch.to_list (net s)) a); [discriminate | congruence].
Qed.

(** X20. Past the warm-up gate, when the batch size is positive and at most
    [REPLAY_START_SIZE], [sample] returns a batch: the training part of the
    iteration either completes or stops with the [RuntimeError] of
    [calc_loss]. The generator's permutation is one of [range(len(buffer))]
    and the synchronisation interval is not 0. *)
Theorem X20_warmup_gate_guards_sample {Obs E Params Opt : Type}
    `{gym.Env Obs E} `{torch.Learner Params Opt Obs}
    (hp : Hyper) (dr : Draws) (s : Main.t Obs E Params Opt) :
  0 < BATCH_SIZE hp <= REPLAY_START_SIZE hp ->
  SYNC_TARGET_FRAMES hp <> 0 ->
  REPLAY_START_SIZE hp <= Z.of_nat (ExperienceBuffer.__len__ (Main.buffer s)) ->
  Permutation (perm dr) (seq 0 (ExperienceBuffer.__len__ (Main.buffer s))) ->
  (exists batch,
     fst (ExperienceBuffer.sample (BATCH_SIZE hp) (perm dr) (Main.buffer s)) =
     Ok batch) /\
  (snd (Main.train hp dr s) = Continue \/
   snd (Main.train hp dr s) = Raised "RuntimeError").
Proof.
  intros Hbatch Hsync Hgate Hperm.
  destruct (@sample_rows Obs (Main.buffer s) (BATCH_SIZE hp) (perm dr))
    as (rows & _ & _ & Hs); [lia | exact Hperm |].
  split; [eexists; exact Hs |].
  unfold Main.train.
  destruct (Z.ltb_spec (Z.of_nat (ExperienceBuffer.__len__ (Main.buffer s)))
              (REPLAY_START_SIZE hp)); [lia |].
  destruct (Z.eqb_spec (SYNC_TARGET_FRAMES hp) 0); [contradiction |].
  rewrite Hs.
  destruct (calc_loss _ _ _ _) as [loss_t | e] eqn:Hloss.
  - destruct (torch.backward_step _ _ _) as [net' optimizer'].
    left. reflexivity.
  - right. apply calc_loss_raises_only in Hloss. subst e. reflexivity.
Qed.

(** X20 on iteration 3 of the program with a warm-up of 2 and batches of
    2. *)
Lemma X20_warmup_gate_guards_sample_witness :
  snd FiveSteps.training_after_3 = Continue \/
  snd FiveSteps.training_after_3 = Raised "RuntimeError".
Proof.
  refine (proj2 (@X20_warmup_gate_guards_sample nat nat nat unit
                   FiveSteps.env FiveSteps.learner FiveSteps.eager_constants
                   (FiveSteps.draws_at 3)
                   (fst (FiveSteps.after FiveSteps.eager_constants 3))
                   _ _ _ _)).
  - split; [reflexivity | discriminate].
  - discriminate.
  - vm_compute. discriminate.
  - vm_compute. apply Permutation_refl.
Defined.

(** ** The buffer along the loop *)

Section FillFacts.
Context {Obs E Params Opt : Type}.
Context `{gym.Env Obs E} `{torch.Learner Params Opt Obs}.
Variable hp : Hyper.
Implicit Types (s : Main.t Obs E Params Opt) (dr : Draws).

Lemma startup_buffer (env0 : E) (net0 tgt_net0 : Params) (ts0 : Q) s0 :
  Main.startup hp env0 net0 tgt_net0 ts0 = Ok s0 ->
  0 <= REPLAY_SIZE hp /\
  Main.buffer s0 =
  ExperienceBuffer.mk (deque.mk (Z.to_nat (REPLAY_SIZE hp)) []).
Proof.
  intros Hs.
  destruct (@startup_cases _ _ _ _ _ _ hp env0 net0 tgt_net0 ts0)
    as (Hover & Hneg & Hrate & Hok).
  destruct (Z_lt_le_dec (REPLAY_SIZE hp) (- 2 ^ 63)) as [Hl | Hl];
    [rewrite Hover in Hs by lia; discriminate Hs |].
  destruct (Z_lt_le_dec (REPLAY_SIZE hp) 0) as [Hn | Hn];
    [rewrite Hneg in Hs by lia; discriminate Hs |].
  destruct (Z_lt_le_dec (REPLAY_SIZE hp) (2 ^ 63)) as [Hh | Hh];
    [| rewrite Hover in Hs by lia; discriminate Hs].
  destruct (Qlt_le_dec (LEARNING_RATE hp) 0) as [Hr | Hr];
    [rewrite Hrate in Hs by (lia || assumption); discriminate Hs |].
  rewrite Hok in Hs by (lia || assumption).
  inversion Hs; subst. split; [exact Hn |].
  unfold Main.buffer, Agent.__init__. cbn [Main.agent].
  destruct (gym.reset env0). reflexivity.
Qed.

(** An iteration that goes on to the next one has appended one
    transition. *)
Lemma loop_body_continue_appends dr s :
  snd (Main.loop_body hp dr s) = Continue ->
  exists e,
    Main.buffer (fst (Main.loop_body hp dr s)) =
    ExperienceBuffer.append e (Main.buffer s).
Proof.
  apply (loop_body_cases hp dr s
           (fun res => snd res = Continue ->
                       exists e, Main.buffer (fst res) =
                                 ExperienceBuffer.append e (Main.buffer s))).
  - intros e _ Hc. discriminate Hc.
  - intros epsilon' reward agent' s1 _ Hplay ->.
    destruct (play_step_buffer (torch.forward (Main.net s)) epsilon' (u dr)
                (Main.agent s)) as (e & He).
    rewrite Hplay in He. cbn [snd] in He.
    assert (Htrain : forall s2 : Main.t Obs E Params Opt,
      Main.agent s2 = agent' ->
      snd (Main.train hp dr s2) = Continue ->
      exists e, Main.buffer (fst (Main.train hp dr s2)) =
                ExperienceBuffer.append e (Main.buffer s)).
    { intros s2 Hag _. exists e.
      destruct (train_keeps hp dr s2) as (Hk & _).
      unfold Main.buffer. cbv zeta in Hk. rewrite Hk, Hag. exact He. }
    destruct reward as [r |]; [| now apply Htrain].
    match goal with
    | |- context [Main.episode_done hp dr r ?s1] =>
        destruct (episode_done_keeps hp dr r s1) as (_ & _ & Hag & _);
        destruct (snd (Main.episode_done hp dr r s1))
    end; cbv zeta in Hag; cbn [Main.agent] in Hag.
    + now apply Htrain.
    + intros Hc. discriminate Hc.
    + intros Hc. discriminate Hc.
Qed.
End FillFacts.

(** X21. From startup on, the buffer never holds more than [REPLAY_SIZE]
    transitions and keeps that capacity, however long the loop runs. *)
Theorem X21_buffer_bounded_by_replay_size {Obs E Params Opt : Type}
    `{gym.Env Obs E} `{torch.Learner Params Opt Obs}
    (hp : Hyper) (env0 : E) (net0 tgt_net0 : Params) (ts0 : Q)
    (s0 : Main.t Obs E Params Opt) (draws : list Draws) :
  Main.startup hp env0 net0 tgt_net0 ts0 = Ok s0 ->
  Z.of_nat (ExperienceBuffer.__len__ (Main.buffer (fst (Main.loop hp draws s0))))
  <= REPLAY_SIZE hp /\
  Z.of_nat (capacity_of (Main.buffer (fst (Main.loop hp draws s0)))) =
  REPLAY_SIZE hp.
Proof.
  intros Hstart.
  destruct (startup_buffer hp _ _ _ _ Hstart) as (Hpos & Hbuf).
  assert (Hwf : ExperienceBuffer.wf (Main.buffer s0))
    by (rewrite Hbuf; unfold ExperienceBuffer.wf, deque.wf; cbn; lia).
  destruct (@loop_wf _ _ _ _ _ _ hp draws s0 Hwf) as (Hwf' & Hcap).
  assert (Hc0 : capacity_of (Main.buffer s0) = Z.to_nat (REPLAY_SIZE hp))
    by (rewrite Hbuf; reflexivity).
  unfold ExperienceBuffer.wf, deque.wf in Hwf'.
  change (deque.maxlen _)
    with (capacity_of (Main.buffer (fst (Main.loop hp draws s0)))) in Hwf'.
  unfold ExperienceBuffer.__len__, deque.len. lia.
Qed.

(** X21 on 30 iterations of the program with a replay size of 10000. *)
Lemma X21_buffer_bounded_by_replay_size_witness :
  Z.of_nat (ExperienceBuffer.__len__
              (Main.buffer (fst (FiveSteps.after source_constants 30))))
  <= 10000 /\
  Z.of_nat (capacity_of
              (Main.buffer (fst (FiveSteps.after source_constants 30)))) =
  10000.
Proof.
  apply (@X21_buffer_bounded_by_replay_size nat nat nat unit FiveSteps.env
           FiveSteps.learner source_constants 0%nat 1%nat 0%nat 0%Q
           FiveSteps.start (FiveSteps.draws_upto 30)).
  reflexivity.
Defined.

(** X22. From startup on, as long as the loop goes on, the buffer holds one
    transition per iteration until it is full: after [n] iterations its
    occupancy is [min(n, REPLAY_SIZE)]. *)
Theorem X22_buffer_fills_one_per_frame {Obs E Params Opt : Type}
    `{gym.Env Obs E} `{torch.Learner Params Opt Obs}
    (hp : Hyper) (env0 : E) (net0 tgt_net0 : Params) (ts0 : Q)
    (s0 : Main.t Obs E Params Opt) (draws : list Draws) :
  Main.startup hp env0 net0 tgt_net0 ts0 = Ok s0 ->
  snd (Main.loop hp draws s0) = Continue ->
  Z.of_nat (ExperienceBuffer.__len__ (Main.buffer (fst (Main.loop hp draws s0))))
  = Z.min (Z.of_nat (length draws)) (REPLAY_SIZE hp).
Proof.
  intros Hstart.
  destruct (startup_buffer hp _ _ _ _ Hstart) as (Hpos & Hbuf).
  assert (Hwf : ExperienceBuffer.wf (Main.buffer s0))
    by (rewrite Hbuf; unfold ExperienceBuffer.wf, deque.wf; cbn; lia).
  assert (Hc0 : capacity_of (Main.buffer s0) = Z.to_nat (REPLAY_SIZE hp))
    by (rewrite Hbuf; reflexivity).
  assert (Hl0 : ExperienceBuffer.__len__ (Main.buffer s0) = 0%nat)
    by (rewrite Hbuf; reflexivity).
  assert (Hgen : forall ds (s : Main.t Obs E Params Opt),
    ExperienceBuffer.wf (Main.buffer s) ->
    snd (Main.loop hp ds s) = Continue ->
    ExperienceBuffer.__len__ (Main.buffer (fst (Main.loop hp ds s))) =
    Nat.min (ExperienceBuffer.__len__ (Main.buffer s) + length ds)
            (capacity_of (Main.buffer s))).
  { induction ds as [| dr ds IH]; intros s Hw Hc.
    - cbn [Main.loop fst length].
      assert (ExperienceBuffer.__len__ (Main.buffer s)
              <= capacity_of (Main.buffer s))%nat by exact Hw.
      lia.
    - destruct (loop_cons hp dr ds s) as [[Hc1 Heq] | [Hstop Heq]];
        rewrite Heq in Hc |- *; [| contradiction].
      destruct (loop_body_continue_appends hp dr s Hc1) as (e & He).
      destruct (@loop_body_wf _ _ _ _ _ _ hp dr s Hw) as (Hw1 & Hcap1).
      rewrite (IH _ Hw1 Hc), Hcap1, He, (len_append e Hw).
      cbn [length]. lia. }
  intros Hc. rewrite (Hgen draws s0 Hwf Hc), Hl0, Hc0. lia.
Qed.

(** X22 on 30 iterations of the program with a replay size of 10000. *)
Lemma X22_buffer_fills_one_per_frame_witness :
  Z.of_nat (ExperienceBuffer.__len__
              (Main.buffer (fst (FiveSteps.after source_constants 30)))) =
  Z.min (Z.of_nat (length (FiveSteps.draws_upto 30))) 10000.
Proof.
  apply (@X22_buffer_fills_one_per_frame nat nat nat unit FiveSteps.env
           FiveSteps.learner source_constants 0%nat 1%nat 0%nat 0%Q
           FiveSteps.start (FiveSteps.draws_upto 30)).
  - reflexivity.
  - vm_compute. reflexivity.
Defined.

(** ** The name of the checkpoint file *)

(** The pieces of a split, put back together with the separator, give the
    string; no piece holds the separator. *)
Lemma py_split_spec (sep : ascii) (s : string) :
  exists pieces piece,
    py_split sep s = pieces ++ [piece] /\
    s = String.append
          (String.concat EmptyString
             (map (fun p => String.append p (String sep EmptyString)) pieces))
          piece /\
    Forall (fun p => ~ In sep (list_ascii_of_string p)) (pieces ++ [piece]).
Proof.
  induction s as [| c s (pieces & piece & Hsplit & Hjoin & Hno)].
  - exists [], EmptyString. repeat split. repeat constructor. intros [].
  - cbn [py_split]. destruct (Ascii.eqb_spec c sep) as [-> | Hc].
    + exists (EmptyString :: pieces), piece. rewrite Hsplit.
      split; [reflexivity |]. split.
      * cbn [map]. destruct pieces as [| p ps]; cbn in *; now rewrite <- Hjoin.
      * constructor; [intros [] | exact Hno].
    + rewrite Hsplit. destruct pieces as [| p ps].
      * exists [], (String c piece). cbn in *.
        split; [reflexivity |]. split; [now rewrite <- Hjoin |].
        inversion Hno; subst. constructor; [| constructor].
        cbn. intros [Heq | Hin]; [congruence | contradiction].
      * exists (String c p :: ps), piece. cbn [app].
        split; [reflexivity |]. split.
        -- cbn [map] in *. destruct ps as [| p' ps']; cbn in *;
             now rewrite <- Hjoin.
        -- inversion Hno; subst. constructor; [| assumption].
           cbn. intros [Heq | Hin]; [congruence | contradiction].
Qed.

Lemma string_append_assoc (a b c : string) :
  String.append (String.append a b) c = String.append a (String.append b c).
Proof. induction a as [| x a IH]; cbn; [reflexivity | now rewrite IH]. Qed.

Lemma concat_snoc (l : list string) (x : string) :
  String.concat EmptyString (l ++ [x]) =
  String.append (String.concat EmptyString l) x.
Proof.
  induction l as [| h t IH]; [reflexivity |].
  destruct t as [| h' t'].
  - reflexivity.
  - change (String.concat EmptyString ((h :: h' :: t') ++ [x]))
      with (String.append h
              (String.concat EmptyString ((h' :: t') ++ [x]))).
    rewrite IH.
    change (String.concat EmptyString (h :: h' :: t'))
      with (String.append h (String.concat EmptyString (h' :: t'))).
    now rewrite string_append_assoc.
Qed.

(** X23. The text that the name of the checkpoint file starts with is what
    follows the last ['/'] of the environment name: it holds no ['/'], and
    the environment name is that text, alone or behind a prefix that ends
    with ['/']. For the default environment it is [Pong-v5]. *)
Theorem X23_checkpoint_stem (env_name : string) :
  ~ In "/"%char (list_ascii_of_string (checkpoint_stem env_name)) /\
  (exists dir,
     env_name = String.append dir (checkpoint_stem env_name) /\
     (dir = EmptyString \/
      exists d, dir = String.append d (String "/"%char EmptyString))) /\
  checkpoint_stem DEFAULT_ENV_NAME = "Pong-v5".
Proof.
  destruct (py_split_spec "/"%char env_name)
    as (pieces & piece & Hsplit & Hjoin & Hno).
  assert (Hstem : checkpoint_stem env_name = piece)
    by (unfold checkpoint_stem; rewrite Hsplit; apply last_last).
  rewrite Hstem. split; [| split; [| reflexivity]].
  - apply Forall_app in Hno. destruct Hno as [_ Hp]. now inversion Hp.
  - eexists. split; [exact Hjoin |].
    destruct pieces as [| p ps]; [now left | right].
    destruct (@exists_last _ (p :: ps)) as (init & g & Heq); [discriminate |].
    rewrite Heq, map_app. cbn [map]. rewrite concat_snoc.
    rewrite <- string_append_assoc. eexists. reflexivity.
Qed.

(** X23 on the default environment name. *)
Lemma X23_checkpoint_stem_witness :
  ~ In "/"%char (list_ascii_of_string (checkpoint_stem DEFAULT_ENV_NAME)).
Proof. exact (proj1 (X23_checkpoint_stem DEFAULT_ENV_NAME)). Defined.

(** ** Constants that are zero *)

(** X24. A decay horizon of 0 stops the loop in its first iteration with
    [ZeroDivisionError], before the agent has acted: only the frame counter
    has moved. A synchronisation interval of 0 goes unnoticed during
    warm-up and raises [ZeroDivisionError], with nothing changed, in the
    first training part past the gate. *)
Theorem X24_zero_constants_divide_by_zero {Obs E Params Opt : Type}
    `{gym.Env Obs E} `{torch.Learner Params Opt Obs}
    (hp : Hyper) (dr : Draws) (s : Main.t Obs E Params Opt) :
  (EPSILON_DECAY_LAST_FRAME hp = 0 ->
   forall draws,
     Main.loop hp (dr :: draws) s =
     (Main.mk (Main.net s) (Main.tgt_net s) (Main.agent s) (Main.epsilon s)
        (Main.optimizer s) (Main.total_rewards s) (Main.frame_idx s + 1)
        (Main.ts_frame s) (Main.ts s) (Main.best_m_reward s),
      Raised "ZeroDivisionError")) /\
  (SYNC_TARGET_FRAMES hp = 0 ->
   (Z.of_nat (ExperienceBuffer.__len__ (Main.buffer s)) < REPLAY_START_SIZE hp ->
    Main.train hp dr s = (s, Continue)) /\
   (REPLAY_START_SIZE hp <= Z.of_nat (ExperienceBuffer.__len__ (Main.buffer s)) ->
    Main.train hp dr s = (s, Raised "ZeroDivisionError"))).
Proof.
  split.
  - intros Hzero draws. cbn [Main.loop].
    unfold Main.loop_body, Main.epsilon_schedule. rewrite Hzero. reflexivity.
  - intros Hzero. split; [apply train_warmup |].
    intros Hgate. unfold Main.train.
    destruct (Z.ltb_spec (Z.of_nat (ExperienceBuffer.__len__ (Main.buffer s)))
                (REPLAY_START_SIZE hp)); [lia |].
    rewrite Hzero. reflexivity.
Qed.

(** X24 on the program started with constants that are all zero. *)
Lemma X24_zero_constants_divide_by_zero_witness :
  snd (@Main.loop nat nat nat unit FiveSteps.env FiveSteps.learner
         FiveSteps.zero_constants
         (FiveSteps.draws_at 1 :: FiveSteps.draws_upto 3)
         FiveSteps.start_zero) = Raised "ZeroDivisionError".
Proof.
  rewrite (proj1 (@X24_zero_constants_divide_by_zero nat nat nat unit
                    FiveSteps.env FiveSteps.learner FiveSteps.zero_constants
                    (FiveSteps.draws_at 1) FiveSteps.start_zero)
             eq_refl (FiveSteps.draws_upto 3)).
  reflexivity.
Defined.
